(** * MD&A extraction from Chinese annual reports: a shallow embedding of
      [extract_mda.py] and the properties of its specification.

    Python strings are sequences of Unicode code points, indexed by code
    point; they are modelled as [list N].  Python integers used as offsets
    are [Z] (slices receive negative offsets).  Exceptions are modelled with
    an error monad.  The [re] module is modelled twice: the patterns that are
    literals of the source are regular-expression values interpreted by a
    backtracking matcher, and the patterns built at run time (the keyword
    pattern of the caller, title fragments of the document) go through an
    interface [RegexEngine], with one executable instance. *)

From Stdlib Require Import NArith ZArith Lia.
From Stdlib Require Import Strings.String.
From Stdlib Require Strings.Byte.
From stdpp Require Import gmap list.

Open Scope Z_scope.

(** ** Strings *)

Abbreviation char := N (only parsing).
Abbreviation str := (list N) (only parsing).

Module Utf8.

(** Source literals are written as UTF-8 string literals and decoded to code
    points, so that the text of a constant can be compared with the source. *)
Fixpoint decode (bs : list N) (pending : nat) (acc : N) : list N :=
  match bs with
  | [] => []
  | b :: bs' =>
      if (b <? 0x80)%N then b :: decode bs' 0%nat 0%N
      else if (b <? 0xC0)%N then
        let acc' := (acc * 64 + (b - 0x80))%N in
        match pending with
        | 0%nat => decode bs' 0%nat 0%N
        | 1%nat => acc' :: decode bs' 0%nat 0%N
        | S p => decode bs' p acc'
        end
      else if (b <? 0xE0)%N then decode bs' 1%nat (b - 0xC0)%N
      else if (b <? 0xF0)%N then decode bs' 2%nat (b - 0xE0)%N
      else decode bs' 3%nat (b - 0xF0)%N
  end.

Definition of_string (s : String.string) : list N :=
  decode (map Byte.to_N (String.list_byte_of_string s)) 0%nat 0%N.

End Utf8.

Abbreviation u s := (Utf8.of_string s%string) (only parsing).

Definition NL : N := 0x0A%N.

(** ** Exceptions *)

Inductive exn : Type :=
| IndexError | ValueError | KeyError | UnboundLocalError | AttributeError
| ReError.

Inductive result (A : Type) : Type :=
| Ok (a : A)
| Raise (e : exn).
Arguments Ok {A} a.
Arguments Raise {A} e.

#[global] Instance result_ret : MRet result := fun _ a => Ok a.
#[global] Instance result_bind : MBind result := fun _ _ f m =>
  match m with Ok a => f a | Raise e => Raise e end.

(** [try: m except <caught>: h].  Every constructor of [exn] stands for a
    subclass of [Exception], so [except Exception] catches them all. *)
Definition try_catch {A} (caught : exn -> bool) (m h : result A) : result A :=
  match m with
  | Ok a => Ok a
  | Raise e => if caught e then h else Raise e
  end.

Definition Exception (e : exn) : bool := true.

Definition only_IndexError (e : exn) : bool :=
  match e with IndexError => true | _ => false end.

Definition try_except {A} (m h : result A) : result A := try_catch Exception m h.

Definition raises {A} (m : result A) : Prop := exists e, m = Raise e.

(** ** Python sequence operations *)

Module Py.

(** Clamping of a slice bound against a sequence of length [len]. *)
Definition clamp (len i : Z) : Z :=
  if i <? 0 then Z.max (i + len) 0 else Z.min i len.

(** [s[a:b]] *)
Definition slice {A} (s : list A) (a b : Z) : list A :=
  let len := Z.of_nat (length s) in
  let lo := clamp len a in
  let hi := clamp len b in
  take (Z.to_nat (hi - lo)) (drop (Z.to_nat lo) s).

(** [s[a:]] *)
Definition slice_from {A} (s : list A) (a : Z) : list A :=
  drop (Z.to_nat (clamp (Z.of_nat (length s)) a)) s.

(** [l[i]], raising IndexError out of range. *)
Definition index {A} (l : list A) (i : Z) : result A :=
  let len := Z.of_nat (length l) in
  let j := if i <? 0 then i + len else i in
  if (j <? 0) || (len <=? j) then Raise IndexError
  else match l !! Z.to_nat j with
       | Some x => Ok x
       | None => Raise IndexError
       end.

(** [s.find(sep)] for a non-empty [sep]: offset of the first occurrence. *)
Fixpoint prefixb (p s : str) : bool :=
  match p, s with
  | [], _ => true
  | _ :: _, [] => false
  | a :: p', b :: s' => (a =? b)%N && prefixb p' s'
  end.

Fixpoint find (sep s : str) : option nat :=
  if prefixb sep s then Some 0%nat
  else match s with
       | [] => None
       | _ :: s' => S <$> find sep s'
       end.

(** [s.split(sep)]: the pieces between the occurrences of [sep] found from
    left to right, each search resuming after the previous occurrence. *)
Fixpoint split_pieces (fuel : nat) (sep s : str) : list str :=
  match fuel with
  | O => [s]
  | S fuel' =>
      match find sep s with
      | None => [s]
      | Some i => take i s :: split_pieces fuel' sep (drop (i + length sep) s)
      end
  end.

Definition split (s sep : str) : result (list str) :=
  match sep with
  | [] => Raise ValueError
  | _ => Ok (split_pieces (length s) sep s)
  end.

(** [s.replace(old, '')] for a one-character [old]. *)
Definition remove_char (c : N) (s : str) : str :=
  filter (fun x => x ≠ c) s.

End Py.

(** ** Character classes of [re] on [str] patterns *)

Module Uni.

Definition in_ranges (rs : list (N * N)) (c : N) : bool :=
  existsb (fun '(lo, hi) => (lo <=? c)%N && (c <=? hi)%N) rs.

(** Characters for which [str.isspace] holds; [\s] and [str.strip] use it. *)
Definition space_ranges : list (N * N) :=
  [(0x9, 0xD); (0x1C, 0x20); (0x85, 0x85); (0xA0, 0xA0); (0x1680, 0x1680);
   (0x2000, 0x200A); (0x2028, 0x2029); (0x202F, 0x202F); (0x205F, 0x205F);
   (0x3000, 0x3000)]%N.

Definition is_space : N -> bool := in_ranges space_ranges.

(** Decimal digits (general category Nd, Unicode 14.0 as in CPython 3.11);
    [\d] uses it. *)
Definition digit_ranges : list (N * N) :=
  [(0x30, 0x39); (0x660, 0x669); (0x6F0, 0x6F9); (0x7C0, 0x7C9);
   (0x966, 0x96F); (0x9E6, 0x9EF); (0xA66, 0xA6F); (0xAE6, 0xAEF);
   (0xB66, 0xB6F); (0xBE6, 0xBEF); (0xC66, 0xC6F); (0xCE6, 0xCEF);
   (0xD66, 0xD6F); (0xDE6, 0xDEF); (0xE50, 0xE59); (0xED0, 0xED9);
   (0xF20, 0xF29); (0x1040, 0x1049); (0x1090, 0x1099); (0x17E0, 0x17E9);
   (0x1810, 0x1819); (0x1946, 0x194F); (0x19D0, 0x19D9); (0x1A80, 0x1A89);
   (0x1A90, 0x1A99); (0x1B50, 0x1B59); (0x1BB0, 0x1BB9); (0x1C40, 0x1C49);
   (0x1C50, 0x1C59); (0xA620, 0xA629); (0xA8D0, 0xA8D9); (0xA900, 0xA909);
   (0xA9D0, 0xA9D9); (0xA9F0, 0xA9F9); (0xAA50, 0xAA59); (0xABF0, 0xABF9);
   (0xFF10, 0xFF19); (0x104A0, 0x104A9); (0x10D30, 0x10D39);
   (0x11066, 0x1106F); (0x110F0, 0x110F9); (0x11136, 0x1113F);
   (0x111D0, 0x111D9); (0x112F0, 0x112F9); (0x11450, 0x11459);
   (0x114D0, 0x114D9); (0x11650, 0x11659); (0x116C0, 0x116C9);
   (0x11730, 0x11739); (0x118E0, 0x118E9); (0x11950, 0x11959);
   (0x11C50, 0x11C59); (0x11D50, 0x11D59); (0x11DA0, 0x11DA9);
   (0x16A60, 0x16A69); (0x16AC0, 0x16AC9); (0x16B50, 0x16B59);
   (0x1D7CE, 0x1D7FF); (0x1E140, 0x1E149); (0x1E2F0, 0x1E2F9);
   (0x1E950, 0x1E959); (0x1FBF0, 0x1FBF9)]%N.

Definition is_digit : N -> bool := in_ranges digit_ranges.

End Uni.

Module Py_str.

(** [s.rstrip()], [s.lstrip()], [s.strip()] *)
Fixpoint lstrip (s : str) : str :=
  match s with
  | c :: s' => if Uni.is_space c then lstrip s' else s
  | [] => []
  end.

Definition rstrip (s : str) : str := reverse (lstrip (reverse s)).

Definition strip (s : str) : str := rstrip (lstrip s).

End Py_str.

(** ** Regular expressions

    The patterns of the source use no groups, anchors or look-around: each is
    an alternation of sequences of single-character atoms with greedy
    repetition counts.  [regex] is that fragment of the pattern language of
    [re], and the matcher follows the backtracking order of [re]: branches of
    an alternation are tried from left to right, a repetition takes as many
    characters as it can before giving some back. *)

Module Re.

Inductive cset_item : Type :=
| CChar (c : N)
| CRange (lo hi : N)
| CDigit
| CSpace.

Inductive atom : Type :=
| ALit (c : N)
| AAny
| ASet (negated : bool) (items : list cset_item).

Record piece : Type := Piece {
  p_atom : atom;
  p_min : nat;
  p_max : option nat
}.

Definition branch : Type := list piece.
Definition regex : Type := list branch.

Definition one (a : atom) : piece := Piece a 1 (Some 1%nat).
Definition star (a : atom) : piece := Piece a 0 None.
Definition plus (a : atom) : piece := Piece a 1 None.
Definition lits (s : str) : branch := map (fun c => one (ALit c)) s.

Definition item_matches (i : cset_item) (c : N) : bool :=
  match i with
  | CChar d => (c =? d)%N
  | CRange lo hi => (lo <=? c)%N && (c <=? hi)%N
  | CDigit => Uni.is_digit c
  | CSpace => Uni.is_space c
  end.

Definition atom_matches (a : atom) (c : N) : bool :=
  match a with
  | ALit d => (c =? d)%N
  | AAny => negb (c =? NL)%N
  | ASet neg items => xorb neg (existsb (fun i => item_matches i c) items)
  end.

Definition may_take (hi : option nat) : bool :=
  match hi with Some O => false | _ => true end.

(** Greedy repetition of [a], between [lo] and [hi] times, then [k]. [n] is
    the number of characters consumed so far; the result is the length of the
    match. *)
Fixpoint match_rep (k : str -> nat -> option nat) (a : atom)
    (lo : nat) (hi : option nat) (s : str) (n : nat) {struct s} : option nat :=
  let stop := match lo with O => k s n | S _ => None end in
  match s with
  | c :: s' =>
      if atom_matches a c && may_take hi then
        match match_rep k a (pred lo) (pred <$> hi) s' (S n) with
        | Some r => Some r
        | None => stop
        end
      else stop
  | [] => stop
  end.

(** [must_advance] refuses the empty match (used right after an empty match
    at the same offset). *)
Definition accept (must_advance : bool) (s : str) (n : nat) : option nat :=
  if must_advance && (n =? 0)%nat then None else Some n.

Fixpoint match_branch (must_advance : bool) (ps : branch) (s : str) (n : nat)
    : option nat :=
  match ps with
  | [] => accept must_advance s n
  | p :: ps' =>
      match_rep (match_branch must_advance ps') (p_atom p) (p_min p) (p_max p) s n
  end.

(** Length of the match of [r] at the head of [s], if any. *)
Fixpoint match_at (must_advance : bool) (r : regex) (s : str) : option nat :=
  match r with
  | [] => None
  | b :: r' =>
      match match_branch must_advance b s 0 with
      | Some n => Some n
      | None => match_at must_advance r' s
      end
  end.

(** The spans [(start, end)] of the successive matches, as [finditer] yields
    them.  [skip] counts the characters still covered by the previous
    match. *)
Fixpoint scan (r : regex) (s : str) (pos skip : nat) : list (nat * nat) :=
  let next (l : nat) :=
    match s with
    | [] => []
    | _ :: s' => scan r s' (S pos) (pred l)
    end in
  match skip with
  | S k => next skip
  | O =>
      match match_at false r s with
      | None => next 1%nat
      | Some (S l) => (pos, (pos + S l)%nat) :: next (S l)
      | Some O =>
          (pos, pos) ::
          match match_at true r s with
          | Some l => (pos, (pos + l)%nat) :: next l
          | None => next 1%nat
          end
      end
  end.

Definition spans (r : regex) (s : str) : list (nat * nat) := scan r s 0 0.

Definition substr (s : str) (sp : nat * nat) : str :=
  take (snd sp - fst sp) (drop (fst sp) s).

(** [re.findall(r, s)] for a pattern without groups. *)
Definition findall (r : regex) (s : str) : list str :=
  map (substr s) (spans r s).

(** The pieces of [s] between the spans, from offset [from] on. *)
Fixpoint between (s : str) (from : nat) (sps : list (nat * nat)) : list str :=
  match sps with
  | [] => [drop from s]
  | (a, b) :: sps' => take (a - from) (drop from s) :: between s b sps'
  end.

(** [re.split(r, s)] for a pattern without groups. *)
Definition split (r : regex) (s : str) : list str := between s 0 (spans r s).

(** [re.sub(r, '', s)] *)
Definition sub_empty (r : regex) (s : str) : str := concat (split r s).

End Re.

(** ** Reading a pattern string

    [ReParse.compile] reads the group-free fragment of the pattern syntax:
    literals, [.], the escapes [\n \t \r \f \v \a \d \s] and escaped
    punctuation, sets [[...]] with ranges and negation, the repetitions
    [* + ? {m} {m,} {m,n} {,n}] and [|].  The instance built on it answers
    [ReError] for a malformed pattern and also for syntax outside this
    fragment (groups, anchors, lazy repetition, other escapes); it stands for
    [re.compile] on the fragment only. *)

Module ReParse.
Import Re.

Definition is_ascii_alnum (c : N) : bool :=
  ((0x30 <=? c) && (c <=? 0x39) || (0x41 <=? c) && (c <=? 0x5A)
   || (0x61 <=? c) && (c <=? 0x7A))%N.

Definition escape (c : N) : result cset_item :=
  if (c =? 0x6E)%N then Ok (CChar 0x0A)        (* \n *)
  else if (c =? 0x74)%N then Ok (CChar 0x09)   (* \t *)
  else if (c =? 0x72)%N then Ok (CChar 0x0D)   (* \r *)
  else if (c =? 0x66)%N then Ok (CChar 0x0C)   (* \f *)
  else if (c =? 0x76)%N then Ok (CChar 0x0B)   (* \v *)
  else if (c =? 0x61)%N then Ok (CChar 0x07)   (* \a *)
  else if (c =? 0x64)%N then Ok CDigit         (* \d *)
  else if (c =? 0x73)%N then Ok CSpace         (* \s *)
  else if is_ascii_alnum c then Raise ReError
  else Ok (CChar c).

Definition atom_of_item (i : cset_item) : atom :=
  match i with
  | CChar c => ALit c
  | _ => ASet false [i]
  end.

(** The items of a set, after the opening bracket (and [^]). *)
Fixpoint parse_set (s : str) (first : bool) (acc : list cset_item)
    : result (list cset_item * str) :=
  match s with
  | [] => Raise ReError
  | c :: rest =>
      if (c =? 0x5D)%N && negb first then Ok (reverse acc, rest)
      else if (c =? 0x5C)%N then
        match rest with
        | [] => Raise ReError
        | e :: rest' =>
            match escape e with
            | Ok i => parse_set rest' false (i :: acc)
            | Raise x => Raise x
            end
        end
      else
        match rest with
        | d :: h :: rest' =>
            if (d =? 0x2D)%N && negb (h =? 0x5D)%N then
              if (h =? 0x5C)%N || (h <? c)%N then Raise ReError
              else parse_set rest' false (CRange c h :: acc)
            else parse_set rest false (CChar c :: acc)
        | _ => parse_set rest false (CChar c :: acc)
        end
  end.

Definition is_ascii_digit (c : N) : bool := ((0x30 <=? c) && (c <=? 0x39))%N.

Fixpoint read_nat (s : str) (acc : option nat) : option nat * str :=
  match s with
  | c :: rest =>
      if is_ascii_digit c
      then read_nat rest (Some (default 0 acc * 10 + N.to_nat (c - 0x30)))%nat
      else (acc, s)
  | [] => (acc, s)
  end.

Definition is_repeat_char (c : N) : bool :=
  ((c =? 0x2A) || (c =? 0x2B) || (c =? 0x3F) || (c =? 0x7B))%N.

(** The repetition after an atom: bounds and the rest of the pattern. *)
Definition parse_repeat (s : str) : result (nat * option nat * str) :=
  let no_second (r : nat * option nat * str) :=
    match r.2 with
    | c :: _ => if is_repeat_char c then Raise ReError else Ok r
    | [] => Ok r
    end in
  match s with
  | c :: rest =>
      if (c =? 0x2A)%N then no_second (0%nat, None, rest)
      else if (c =? 0x2B)%N then no_second (1%nat, None, rest)
      else if (c =? 0x3F)%N then no_second (0%nat, Some 1%nat, rest)
      else if (c =? 0x7B)%N then
        match read_nat rest None with
        | (lo, d :: rest1) =>
            if (d =? 0x7D)%N then
              match lo with
              | Some m => no_second (m, Some m, rest1)
              | None => Raise ReError
              end
            else if (d =? 0x2C)%N then
              match read_nat rest1 None with
              | (hi, e :: rest2) =>
                  if (e =? 0x7D)%N then
                    match hi with
                    | Some n =>
                        if (n <? default 0 lo)%nat then Raise ReError
                        else no_second (default 0%nat lo, Some n, rest2)
                    | None => no_second (default 0%nat lo, None, rest2)
                    end
                  else Raise ReError
              | _ => Raise ReError
              end
            else Raise ReError
        | _ => Raise ReError
        end
      else Ok (1%nat, Some 1%nat, s)
  | [] => Ok (1%nat, Some 1%nat, s)
  end.

Definition parse_atom (c : N) (rest : str) : result (atom * str) :=
  if (c =? 0x5C)%N then
    match rest with
    | [] => Raise ReError
    | e :: rest' => i ← escape e; Ok (atom_of_item i, rest')
    end
  else if (c =? 0x5B)%N then
    match rest with
    | n :: rest' =>
        if (n =? 0x5E)%N
        then '(items, r) ← parse_set rest' true []; Ok (ASet true items, r)
        else '(items, r) ← parse_set rest true []; Ok (ASet false items, r)
    | [] => Raise ReError
    end
  else if (c =? 0x2E)%N then Ok (AAny, rest)
  else if ((c =? 0x28) || (c =? 0x29) || (c =? 0x5E) || (c =? 0x24))%N
          || is_repeat_char c
  then Raise ReError
  else Ok (ALit c, rest).

Fixpoint parse_seq (fuel : nat) (s : str) (cur : branch) (done : regex)
    : result regex :=
  match s with
  | [] => Ok (reverse (reverse cur :: done))
  | c :: rest =>
      match fuel with
      | O => Raise ReError
      | S fuel' =>
          if (c =? 0x7C)%N then parse_seq fuel' rest [] (reverse cur :: done)
          else
            '(a, rest1) ← parse_atom c rest;
            '(lo, hi, rest2) ← parse_repeat rest1;
            parse_seq fuel' rest2 (Piece a lo hi :: cur) done
      end
  end.

Definition compile (pat : str) : result regex :=
  parse_seq (length pat) pat [] [].

End ReParse.

(** ** The interface to [re] for patterns built at run time *)

(** One match: its span and what its capturing groups hold (the empty string
    for a group that took no part, as [findall] reports it). *)
Record rmatch : Type := RMatch {
  m_start : nat;
  m_end : nat;
  m_groups : list (list N)
}.

(** [re_scan pat s] stands for the sequence of matches of the pattern string
    [pat] in [s], or for the exception that compiling or running it raises. *)
Record RegexEngine : Type := {
  re_scan : list N -> list N -> result (list rmatch)
}.

(** The executable instance: [ReParse.compile] and the matcher of [Re]. *)
Definition py_re : RegexEngine := {|
  re_scan pat s :=
    r ← ReParse.compile pat;
    Ok (map (fun sp => RMatch sp.1 sp.2 []) (Re.spans r s))
|}.

(** What [findall] puts in its list: a string, or a tuple of strings when the
    pattern has several groups. *)
Inductive pyval : Type :=
| VStr (s : list N)
| VTuple (l : list (list N)).

Fixpoint traverse {A B} (f : A -> result B) (l : list A) : result (list B) :=
  match l with
  | [] => Ok []
  | x :: l' => y ← f x; ys ← traverse f l'; Ok (y :: ys)
  end.

Definition ch (s : string) : N := hd 0%N (Utf8.of_string s).

(** ** The patterns that are literals of the source *)

Module Pat.
Import Re.

Definition numerals : list cset_item := map CChar (u "一二三四五六七八九十").

(** [r'\n目\s*录'] *)
Definition toc_marker : regex :=
  [[one (ALit NL); one (ALit (ch "目")); star (ASet false [CSpace]);
    one (ALit (ch "录"))]].

(** [r'\n第[一二三四五六七八九十][节|章]'] *)
Definition section_marker : regex :=
  [[one (ALit NL); one (ALit (ch "第")); one (ASet false numerals);
    one (ASet false (map CChar (u "节|章")))]].

(** [r'\d+|\.'] *)
Definition digits_or_dot : regex :=
  [[plus (ASet false [CDigit])]; [one (ALit (ch "."))]].

(** [r'\d+|\. ⋯'] *)
Definition digits_or_leader : regex :=
  [[plus (ASet false [CDigit])]; lits (u ". ⋯")].

(** [r'\s'] *)
Definition whitespace : regex := [[one (ASet false [CSpace])]].

(** ['[一二三四五六七八九十]+'] *)
Definition numeral_run : regex := [[plus (ASet false numerals)]].

(** [r'[\u4e00-\u9fa5]+'] *)
Definition cjk_run : regex := [[plus (ASet false [CRange 0x4e00 0x9fa5])]].

(** [r'\n[第]*[一二三四五六七八九十]{1,}[节|章]*[,，:：、. \t]{1,5}'], the text
    put in front of the keyword pattern. *)
Definition header_prefix : list N :=
  u "\n[第]*[一二三四五六七八九十]{1,}[节|章]*[,，:：、. \t]{1,5}".

End Pat.

(** ** Counter *)

Module Counter.

(** Counts in order of first appearance, as a [dict] keeps its keys. *)
Fixpoint add (x : list N) (c : list (list N * nat)) : list (list N * nat) :=
  match c with
  | [] => [(x, 1%nat)]
  | (y, n) :: c' =>
      if decide (x = y) then (y, S n) :: c' else (y, n) :: add x c'
  end.

Definition of_list (l : list (list N)) : list (list N * nat) :=
  foldl (fun c x => add x c) [] l.

(** [most_common(1)]: the first entry among those with the largest count. *)
Definition most_common1 (c : list (list N * nat)) : list (list N * nat) :=
  match c with
  | [] => []
  | p :: c' => [foldl (fun best q => if (best.2 <? q.2)%nat then q else best) p c']
  end.

End Counter.

Definition dict_get `{Countable K} {V} (m : gmap K V) (k : K) : result V :=
  match m !! k with
  | Some v => Ok v
  | None => Raise KeyError
  end.

(** ** The program *)

(** [_get_toc_range] *)
Definition _get_toc_range (text : list N) : result (Z * Z) :=
  try_catch only_IndexError
    (let starts := map (fun sp => Z.of_nat sp.1) (Re.spans Pat.toc_marker text) in
     toc_start_index ← Py.index starts 0;
     let toc_end_index := toc_start_index + 2000 in
     Ok (toc_start_index, toc_end_index))
    (Ok (0, 2500)).

Definition default_keywords : list N :=
  u "董事会报告|董事会报告与管理讨论|企业运营与管理评述|经营总结与分析|"
  ++ u "管理层评估与未来展望|董事局报告|管理层讨论与分析|经营情况讨论与分析|"
  ++ u "经营业绩分析|业务回顾与展望|公司经营分析|管理层评论与分析|"
  ++ u "执行摘要与业务回顾|业务运营分析".

(** [_get_mda_keywords_pattern] *)
Definition _get_mda_keywords_pattern (keywords_pattern : list N) : list N :=
  match keywords_pattern with
  | [] => default_keywords
  | _ => keywords_pattern
  end.

(** [_get_chinese_number_maps] *)
Definition _get_chinese_number_maps : gmap (list N) Z * gmap Z (list N) :=
  let char_to_int_map : gmap (list N) Z :=
    list_to_map
      [(u "一", 1); (u "二", 2); (u "三", 3); (u "四", 4); (u "五", 5);
       (u "六", 6); (u "七", 7); (u "八", 8); (u "九", 9); (u "十", 10)] in
  let int_to_char_map : gmap Z (list N) :=
    list_to_map
      [(1, u "一"); (2, u "二"); (3, u "三"); (4, u "四"); (5, u "五");
       (6, u "六"); (7, u "七"); (8, u "八"); (9, u "九"); (10, u "十");
       (11, u "十一"); (12, u "十二")] in
  (char_to_int_map, int_to_char_map).

Definition unpack2 (l : list (list N)) : result (list N * list N) :=
  match l with
  | [a; b] => Ok (a, b)
  | _ => Raise ValueError
  end.

(** The offsets at which a list of booleans holds [true]; the index of the
    rows that a boolean mask keeps. *)
Fixpoint true_indices (l : list bool) (i : Z) : list Z :=
  match l with
  | [] => []
  | b :: l' => (if b then [i] else []) ++ true_indices l' (i + 1)
  end.

Section Program.

Variable E : RegexEngine.

(** [re.finditer(pat, s)], [re.findall(pat, s)], [Series.str.contains(pat)]
    on one entry. *)
Definition re_finditer (pat s : list N) : result (list rmatch) := re_scan E pat s.

Definition findall_item (s : list N) (m : rmatch) : pyval :=
  match m_groups m with
  | [] => VStr (Re.substr s (m_start m, m_end m))
  | [g] => VStr g
  | gs => VTuple gs
  end.

Definition re_findall (pat s : list N) : result (list pyval) :=
  ms ← re_scan E pat s; Ok (map (findall_item s) ms).

Definition str_contains (pat s : list N) : result bool :=
  ms ← re_scan E pat s; Ok (match ms with [] => false | _ => true end).

(** [r.replace('\n', '')] on an element of a [findall] list. *)
Definition replace_newline (r : pyval) : result (list N) :=
  match r with
  | VStr s => Ok (Py.remove_char NL s)
  | VTuple _ => Raise AttributeError
  end.

(** The two parallel sequences read from the TOC text. *)
Definition toc_section_titles (toc_text : list N) : list (list N) :=
  map (fun title => Py_str.strip (Re.sub_empty Pat.digits_or_dot title))
      (drop 1 (Re.split Pat.section_marker toc_text)).

Definition toc_section_markers (toc_text : list N) : list (list N) :=
  Re.findall Pat.section_marker toc_text.

(** [toc_df[toc_df.title.fillna('').str.contains(pat)].index[0]] *)
Definition mda_toc_index (pat : list N) (titles : list (list N)) : result Z :=
  flags ← traverse (str_contains pat) titles;
  Py.index (true_indices flags 0) 0.

(** [re.sub(r'\d+|\. ⋯', '', title).rstrip()] *)
Definition title_mask (section_title : list N) : list N :=
  Py_str.rstrip (Re.sub_empty Pat.digits_or_leader section_title).

(** The first candidate offset confirmed by an occurrence of [part1] in the
    window of fifty characters on either side; [None] when the loop ends
    without assigning. *)
Fixpoint confirmed_start (part1 body : list N) (cands : list Z)
    : result (option Z) :=
  match cands with
  | [] => Ok None
  | start_pos :: rest =>
      ms ← re_scan E part1 (Py.slice body (start_pos - 50) (start_pos + 50));
      match ms with
      | _ :: _ => Ok (Some start_pos)
      | [] => confirmed_start part1 body rest
      end
  end.

Fixpoint confirmed_end (part1 body : list N) (mda_start_index : option Z)
    (cands : list Z) : result (option Z) :=
  match cands with
  | [] => Ok None
  | end_pos :: rest =>
      ms ← re_scan E part1 (Py.slice body (end_pos - 50) (end_pos + 50));
      match ms with
      | _ :: _ =>
          match mda_start_index with
          | None => Raise UnboundLocalError
          | Some start =>
              if start <? end_pos then Ok (Some end_pos)
              else confirmed_end part1 body mda_start_index rest
          end
      | [] => confirmed_end part1 body mda_start_index rest
      end
  end.

(** The body of the inner [try] of [_extract_mda_via_toc]. *)
Definition toc_two_part_search (body mda_title_mask next_title_mask : list N)
    : result (list N) :=
  '(title_part1, title_part2) ← unpack2 (Re.split Pat.whitespace mda_title_mask);
  starts ← re_finditer title_part2 body;
  mda_start_index ←
    confirmed_start title_part1 body (map (fun m => Z.of_nat (m_start m)) starts);
  '(next_title_part1, next_title_part2) ←
    unpack2 (Re.split Pat.whitespace next_title_mask);
  ends ← re_finditer next_title_part2 body;
  mda_end_index ←
    confirmed_end next_title_part1 body mda_start_index
      (map (fun m => Z.of_nat (m_start m)) ends);
  match mda_start_index, mda_end_index with
  | Some a, Some b => Ok (Py.slice body a b)
  | _, _ => Raise UnboundLocalError
  end.

(** The handler of the inner [try]. *)
Definition toc_literal_split (body mda_title_mask next_title_mask : list N)
    : result (list N) :=
  pieces ← Py.split body mda_title_mask;
  after ← Py.index pieces (-1);
  let raw_mda_text := mda_title_mask ++ after in
  parts ← Py.split raw_mda_text next_title_mask;
  Py.index parts 0.

(** The numeral runs near the occurrences of the keyword pattern. *)
Definition numbers_found (mda_keywords_pattern text : list N)
    : result (list (list N)) :=
  ms ← re_finditer mda_keywords_pattern text;
  Ok (concat (map (fun m =>
        let start := Z.of_nat (m_start m) in
        Re.findall Pat.numeral_run (Py.slice text (start - 10) (start + 10)))
      ms)).

(** [[r.replace('\n', '') for r in re.findall(mda_header_pattern, text)][-1]] *)
Definition mda_header_full_match (mda_keywords_pattern text : list N)
    : result (list N) :=
  found ← re_findall (Pat.header_prefix ++ mda_keywords_pattern) text;
  cleaned ← traverse replace_newline found;
  Py.index cleaned (-1).

(** ['\n' + int_to_char_map[char_to_int_map[num] + 1] + header_separator] *)
Definition next_section_header (num header : list N) : result (list N) :=
  let '(char_to_int_map, int_to_char_map) := _get_chinese_number_maps in
  let header_separator := Re.sub_empty Pat.cjk_run header in
  n ← dict_get char_to_int_map num;
  let next_section_number := n + 1 in
  next ← dict_get int_to_char_map next_section_number;
  Ok ([NL] ++ next ++ header_separator).

(** [_extract_mda_via_toc] *)
Definition _extract_mda_via_toc (text keywords_pattern : list N)
    : result (list N) :=
  '(toc_start_index, toc_end_index) ← _get_toc_range text;
  let mda_keywords_pattern := _get_mda_keywords_pattern keywords_pattern in
  let toc_text := Py.slice text toc_start_index toc_end_index in
  let titles := toc_section_titles toc_text in
  let markers := toc_section_markers toc_text in
  match titles, markers with
  | _ :: _, _ :: _ =>
      i ← mda_toc_index mda_keywords_pattern titles;
      marker ← Py.index markers i;
      title ← Py.index titles i;
      let mda_section_title := Py.remove_char NL marker ++ title in
      let mda_title_mask := title_mask mda_section_title in
      next_marker ← Py.index markers (i + 1);
      next_title ← Py.index titles (i + 1);
      let next_section_title := Py.remove_char NL next_marker ++ next_title in
      let next_title_mask := title_mask next_section_title in
      let body := Py.slice_from text toc_end_index in
      try_except
        (toc_two_part_search body mda_title_mask next_title_mask)
        (toc_literal_split body mda_title_mask next_title_mask)
  | _, _ =>
      nums ← numbers_found mda_keywords_pattern text;
      match nums with
      | _ :: _ =>
          top ← Py.index (Counter.most_common1 (Counter.of_list nums)) 0;
          let most_common_section_num_char := top.1 in
          header ← mda_header_full_match mda_keywords_pattern text;
          next ← next_section_header most_common_section_num_char header;
          pieces ← Py.split text header;
          after ← Py.index pieces (-1);
          parts ← Py.split after next;
          Py.index parts 0
      | [] => Ok []
      end
  end.

(** [_extract_mda_via_keyword_search] *)
Definition _extract_mda_via_keyword_search (text keywords_pattern : list N)
    : result (list N) :=
  let mda_keywords_pattern := _get_mda_keywords_pattern keywords_pattern in
  nums ← numbers_found mda_keywords_pattern text;
  match nums with
  | _ :: _ =>
      top ← Py.index (Counter.most_common1 (Counter.of_list nums)) 0;
      let most_common_section_num_char := top.1 in
      header ← mda_header_full_match mda_keywords_pattern text;
      next ← next_section_header most_common_section_num_char header;
      pieces ← Py.split text header;
      after ← Py.index pieces (-1);
      parts ← Py.split after next;
      content ← Py.index parts 0;
      Ok (header ++ content)
  | [] => Ok []
  end.

(** [extract_mda] *)
Definition extract_mda (text keywords_pattern : list N) : result (list N) :=
  try_except (_extract_mda_via_toc text keywords_pattern)
    (try_except (_extract_mda_via_keyword_search text keywords_pattern)
       (Ok [])).

End Program.

(** ** Definitions used to state the properties *)

(** The phrases of the built-in catalog, and [sep.join(l)]. *)
Definition mda_phrases : list (list N) :=
  [u "董事会报告"; u "董事会报告与管理讨论"; u "企业运营与管理评述";
   u "经营总结与分析"; u "管理层评估与未来展望"; u "董事局报告";
   u "管理层讨论与分析"; u "经营情况讨论与分析"; u "经营业绩分析";
   u "业务回顾与展望"; u "公司经营分析"; u "管理层评论与分析";
   u "执行摘要与业务回顾"; u "业务运营分析"].

Fixpoint join (sep : list N) (l : list (list N)) : list N :=
  match l with
  | [] => []
  | [x] => x
  | x :: l' => x ++ sep ++ join sep l'
  end.

(** The keyword pattern matches nowhere in the document. *)
Definition keyword_absent (E : RegexEngine) (text keywords_pattern : list N)
    : Prop :=
  re_finditer E (_get_mda_keywords_pattern keywords_pattern) text = Ok [].

(** The TOC text of a document: the slice that [_extract_mda_via_toc] takes
    with the range of [_get_toc_range]. *)
Definition is_toc_text (text toc_text : list N) : Prop :=
  exists toc_start_index toc_end_index,
    _get_toc_range text = Ok (toc_start_index, toc_end_index)
    /\ toc_text = Py.slice text toc_start_index toc_end_index.

(** No entry of the parsed TOC contains the keyword pattern. *)
Definition no_title_matches (E : RegexEngine) (toc_text keywords_pattern : list N)
    : Prop :=
  forall title, title ∈ toc_section_titles toc_text ->
    str_contains E (_get_mda_keywords_pattern keywords_pattern) title = Ok false.

(** The TOC marker of the specification at offset [k]: a newline, 目, any
    number of whitespace characters, 录. *)
Definition toc_marker_at (text : list N) (k : nat) : Prop :=
  exists ws rest,
    Forall (fun c => Uni.is_space c = true) ws
    /\ drop k text = [NL; ch "目"] ++ ws ++ [ch "录"] ++ rest.

(** [sub] occurs in [s] at offset [i]; [r] is a contiguous substring of
    [s]. *)
Definition occurs_at (sub s : list N) (i : nat) : Prop :=
  sub `prefix_of` drop i s.

Definition substring (r s : list N) : Prop :=
  exists pre post, s = pre ++ r ++ post.

(** No two occurrences of [sub] in [s] overlap. *)
Definition occurrences_apart (sub s : list N) : Prop :=
  forall i j, occurs_at sub s i -> occurs_at sub s j -> (i < j)%nat ->
    (i + length sub <= j)%nat.

(** [s.rfind(sub)]: offset of the last occurrence. *)
Fixpoint rfind (sub s : list N) : option nat :=
  match s with
  | [] => if Py.prefixb sub [] then Some 0%nat else None
  | _ :: s' =>
      match rfind sub s' with
      | Some i => Some (S i)
      | None => if Py.prefixb sub s then Some 0%nat else None
      end
  end.

(** The text after the last occurrence of [sub] (all of [s] when [sub] does
    not occur), and [s] cut at the first occurrence of [sub]. *)
Definition after_last_occurrence (sub s : list N) : list N :=
  match rfind sub s with
  | Some i => drop (i + length sub) s
  | None => s
  end.

Definition truncate_at_first (sub s : list N) : list N :=
  match Py.find sub s with
  | Some i => take i s
  | None => s
  end.

Definition strip_leading_newline (s : list N) : list N :=
  match s with
  | c :: s' => if (c =? NL)%N then s' else s
  | [] => []
  end.

(** The keyword-search result as the specification words it: the last match
    of the header pattern without its leading newline, then the text after
    the last occurrence of that header, cut at the first occurrence of the
    next-section header. *)
Definition keyword_search_spec (E : RegexEngine) (text keywords_pattern : list N)
    : result (list N) :=
  let mda_keywords_pattern := _get_mda_keywords_pattern keywords_pattern in
  nums ← numbers_found E mda_keywords_pattern text;
  top ← Py.index (Counter.most_common1 (Counter.of_list nums)) 0;
  found ← re_findall E (Pat.header_prefix ++ mda_keywords_pattern) text;
  last_match ← Py.index found (-1);
  match last_match with
  | VStr m =>
      let header := strip_leading_newline m in
      next ← next_section_header top.1 header;
      Ok (header ++ truncate_at_first next (after_last_occurrence header text))
  | VTuple _ => Raise AttributeError
  end.

(** The header literals that the extractors put in front of their result.
    For the TOC-based extractor: the cleaned marker and title of the MD&A
    entry of the TOC (the entry at [mda_toc_index]), together with the text
    after the TOC range, which is the text that line 165 splits.  For the
    keyword search: the cleaned last match of the header pattern; the text
    that line 244 splits is the document. *)
Definition toc_header_literal (E : RegexEngine)
    (text keywords_pattern h body : list N) : Prop :=
  exists toc_start_index toc_end_index i marker title,
    _get_toc_range text = Ok (toc_start_index, toc_end_index)
    /\ mda_toc_index E (_get_mda_keywords_pattern keywords_pattern)
         (toc_section_titles (Py.slice text toc_start_index toc_end_index))
       = Ok i
    /\ Py.index
         (toc_section_markers (Py.slice text toc_start_index toc_end_index)) i
       = Ok marker
    /\ Py.index
         (toc_section_titles (Py.slice text toc_start_index toc_end_index)) i
       = Ok title
    /\ h = title_mask (Py.remove_char NL marker ++ title)
    /\ body = Py.slice_from text toc_end_index.

Definition keyword_header_literal (E : RegexEngine)
    (text keywords_pattern h : list N) : Prop :=
  mda_header_full_match E (_get_mda_keywords_pattern keywords_pattern) text = Ok h.

(** ** Documents used as examples *)

(** A document whose only TOC entry is the MD&A section. *)
Definition last_entry_doc : list N := [NL] ++ u "第一节 管理层讨论与分析".

(** A document without any MD&A keyword. *)
Definition no_keyword_doc : list N := u "公司年度报告".

(** A document with a TOC entry that is not the MD&A section. *)
Definition other_entry_doc : list N := [NL] ++ u "第一节 公司简介".

(** A keyword without any numeral nearby; a keyword with a numeral but no
    header line; a header numbered 十一. *)
Definition keyword_only_doc : list N := u "董事会报告".

Definition headless_doc : list N := u "三董事会报告".

Definition compound_numeral_doc : list N :=
  u "公司年度报告全文如下所示" ++ [NL] ++ u "十一、董事会报告正文"
  ++ [NL] ++ u "十二、其他".

(** A document without section markers, with a numbered MD&A header. *)
Definition untitled_doc : list N :=
  u "公司年度报告全文如下所示" ++ [NL] ++ u "三、董事会报告正文"
  ++ [NL] ++ u "四、其他".

(** The synthetic document of the specification: a TOC of four entries padded
    to the 2000 characters of the TOC range, then the four sections. *)
Definition synthetic_toc : list N :=
  [NL] ++ u "目录"
  ++ [NL] ++ u "第一节 公司简介"
  ++ [NL] ++ u "第二节 会计数据摘要"
  ++ [NL] ++ u "第三节 管理层讨论与分析"
  ++ [NL] ++ u "第四节 公司治理" ++ [NL].

Definition synthetic_mda_text : list N := [NL] ++ u "本年度经营情况良好" ++ [NL].

Definition synthetic_body : list N :=
  [NL] ++ u "第一节 公司简介" ++ [NL] ++ u "本公司成立于北京" ++ [NL]
  ++ u "第二节 会计数据摘要" ++ [NL] ++ u "营业收入增长" ++ [NL]
  ++ u "第三节 管理层讨论与分析" ++ synthetic_mda_text
  ++ u "第四节 公司治理" ++ [NL] ++ u "治理结构完善" ++ [NL].

Definition synthetic_doc : list N :=
  synthetic_toc ++ replicate (2000 - length synthetic_toc) (ch " ")
  ++ synthetic_body.

(** A header broken over two lines, searched with a caller's pattern that
    allows whitespace inside the title. *)
Definition broken_header_doc : list N :=
  u "公司年度报告全文如下所示" ++ [NL] ++ u "三、管理层" ++ [NL] ++ u "讨论与分析"
  ++ [NL] ++ u "本年度经营情况良好" ++ [NL] ++ u "四、公司治理".

Definition broken_header_pattern : list N := u "管理层\s*讨论与分析".

(** A TOC of two entries, the first with a year in its title, in a short
    document: nothing follows the TOC range. *)
Definition short_toc_doc : list N :=
  [NL] ++ u "第一节2023年度管理层讨论与分析" ++ [NL] ++ u "第二节公司治理".

(** A pattern that never matches the empty string. *)
Definition never_empty (r : Re.regex) : Prop :=
  forall s, Re.match_at false r s <> Some 0%nat.


(** ** Definitions used to state further properties *)

(** The length of the longest prefix of [s] whose characters match [a]. *)
Fixpoint run_length (a : Re.atom) (s : list N) : nat :=
  match s with
  | c :: s' => if Re.atom_matches a c then S (run_length a s') else 0%nat
  | [] => 0%nat
  end.

(** [r] matches exactly at the characters that satisfy [P], and a match
    covers such characters only: substituting the empty string for [r]
    deletes them. *)
Definition deletes (P : N -> bool) (r : Re.regex) : Prop :=
  forall s,
    match s with
    | [] => Re.match_at false r [] = None
    | c :: s' =>
        if P c
        then exists l, Re.match_at false r (c :: s') = Some (S l)
               /\ (l <= length s')%nat
               /\ Forall (fun d => P d = true) (take l s')
        else Re.match_at false r (c :: s') = None
    end.

(** The characters that [re.sub(r'\d+|\.', '', title)] deletes, and the ones
    that [re.sub(r'[一-龥]+', '', header)] deletes. *)
Definition is_digit_or_dot (c : N) : bool := Uni.is_digit c || (c =? ch ".")%N.

Definition is_cjk (c : N) : bool := ((0x4e00 <=? c) && (c <=? 0x9fa5))%N.

(** A cleaned string: no decimal digit, no dot, no whitespace at either
    end. *)
Definition cleaned_title (title : list N) : Prop :=
  Forall (fun c => is_digit_or_dot c = false) title
  /\ (forall c, head title = Some c -> Uni.is_space c = false)
  /\ (forall c, last title = Some c -> Uni.is_space c = false).

(** The numeral that follows a single numeral 一 to 十. *)
Definition numeral_successor (num : list N) : option (list N) :=
  match num with
  | [c] =>
      if (c =? ch "一")%N then Some (u "二")
      else if (c =? ch "二")%N then Some (u "三")
      else if (c =? ch "三")%N then Some (u "四")
      else if (c =? ch "四")%N then Some (u "五")
      else if (c =? ch "五")%N then Some (u "六")
      else if (c =? ch "六")%N then Some (u "七")
      else if (c =? ch "七")%N then Some (u "八")
      else if (c =? ch "八")%N then Some (u "九")
      else if (c =? ch "九")%N then Some (u "十")
      else if (c =? ch "十")%N then Some (u "十一")
      else None
  | _ => None
  end.

(** A section marker as the TOC parser collects it: newline, 第, a numeral,
    and one of 节, | and 章. *)
Definition is_section_marker (m : list N) : Prop :=
  exists n k, m = [NL; ch "第"; n; k]
    /\ n ∈ u "一二三四五六七八九十" /\ k ∈ u "节|章".

(** The number of whitespace characters of a string. *)
Definition whitespace_count (s : list N) : nat :=
  length (filter (fun c => Uni.is_space c = true) s).

(** A non-empty string of the numerals 一 to 十. *)
Definition is_numeral_run (s : list N) : Prop :=
  s <> [] /\ Forall (fun c => c ∈ u "一二三四五六七八九十") s.

(** How many times [x] stands in [l], and the count that a counter holds for
    [x]. *)
Definition occurrences (x : list N) (l : list (list N)) : nat :=
  length (filter (fun y => y = x) l).

Fixpoint counter_get (c : list (list N * nat)) (x : list N) : nat :=
  match c with
  | [] => 0%nat
  | (y, n) :: c' => if decide (x = y) then n else counter_get c' x
  end.

(** ** Further documents used as examples *)

(** A header in the first ten characters of a text of more than twenty. *)
Definition early_keyword_doc : list N :=
  u "一、董事会报告" ++ [NL] ++ u "本年度公司的经营情况良好而且稳定"
  ++ [NL] ++ u "二、其他事项".

(** A body with spaced headers, and one of more than a hundred characters
    with its header at the start. *)
Definition spaced_body : list N :=
  u "公司简介" ++ [NL] ++ u "第三节 管理层讨论" ++ [NL] ++ u "本年度经营情况良好"
  ++ [NL] ++ u "第四节 公司治理" ++ [NL].

Definition long_body : list N :=
  u "第三节 管理层讨论" ++ [NL] ++ replicate 100 (ch "文") ++ [NL]
  ++ u "第四节 公司治理" ++ [NL].


(** * Properties *)

(** ** Facts about the Python operations *)

Module PyFacts.

Lemma index_raise {A} (l : list A) i e : Py.index l i = Raise e -> e = IndexError.
Proof. unfold Py.index. repeat case_match; congruence. Qed.

Lemma index_past_end {A} (l : list A) i :
  Z.of_nat (length l) <= i -> Py.index l i = Raise IndexError.
Proof.
  intros H. unfold Py.index.
  destruct (i <? 0) eqn:Hi; [lia|].
  destruct (Z.of_nat (length l) <=? i) eqn:Hl; [|lia].
  rewrite orb_true_r. reflexivity.
Qed.

Lemma index_first {A} (l : list A) :
  Py.index l 0 = match l with x :: _ => Ok x | [] => Raise IndexError end.
Proof.
  destruct l as [|x l]; [done|]. unfold Py.index. cbn [length].
  assert (E : (Z.of_nat (S (length l)) <=? 0) = false) by (apply Z.leb_gt; lia).
  change (0 <? 0) with false. cbv iota. rewrite E. reflexivity.
Qed.

Lemma index_last {A} (l : list A) :
  Py.index l (-1) = match last l with Some x => Ok x | None => Raise IndexError end.
Proof.
  unfold Py.index. change (-1 <? 0) with true. cbv iota.
  destruct l as [|x l]; [done|].
  assert (E1 : (-1 + Z.of_nat (length (x :: l)) <? 0) = false)
    by (apply Z.ltb_ge; cbn [length]; lia).
  assert (E2 : (Z.of_nat (length (x :: l)) <=? -1 + Z.of_nat (length (x :: l))) = false)
    by (apply Z.leb_gt; lia).
  rewrite E1, E2. simpl orb. cbv iota.
  rewrite last_lookup.
  replace (Z.to_nat (-1 + Z.of_nat (length (x :: l)))) with (pred (length (x :: l)))
    by (cbn [length]; lia).
  reflexivity.
Qed.

Lemma index_last_Ok {A} (l : list A) x : Py.index l (-1) = Ok x -> last l = Some x.
Proof. rewrite index_last. destruct (last l); [by intros [= ->] | done]. Qed.

Lemma index_first_Ok {A} (l : list A) x : Py.index l 0 = Ok x -> head l = Some x.
Proof. rewrite index_first. destruct l; [done | by intros [= ->]]. Qed.

Lemma index_elem {A} (l : list A) i x : Py.index l i = Ok x -> x ∈ l.
Proof.
  unfold Py.index. case_match; [done|].
  destruct (l !! _) eqn:El; [|done]. intros [= ->].
  by eapply list_elem_of_lookup_2.
Qed.

Lemma traverse_all_false {A} (f : A -> result bool) (l : list A) :
  (forall x, x ∈ l -> f x = Ok false) ->
  traverse f l = Ok (replicate (length l) false).
Proof.
  induction l as [|x l IH]; intros H; simpl; [done|].
  rewrite (H x) by apply list_elem_of_here. simpl.
  rewrite IH; [done|]. intros y Hy. apply H. by apply list_elem_of_further.
Qed.

Lemma true_indices_all_false n i : true_indices (replicate n false) i = [].
Proof. revert i. induction n; intros i; simpl; auto. Qed.

Lemma traverse_last {A B} (f : A -> result B) l l' y :
  traverse f l = Ok l' -> last l' = Some y ->
  exists x, last l = Some x /\ f x = Ok y.
Proof.
  revert l'. induction l as [|x l IH]; intros l' Ht Hl; simpl in Ht.
  - injection Ht as <-. done.
  - destruct (f x) as [b|] eqn:Fx; simpl in Ht; [|done].
    destruct (traverse f l) as [bs|] eqn:T; simpl in Ht; [|done].
    injection Ht as <-. rewrite last_cons in Hl. rewrite last_cons.
    destruct (last bs) as [y'|] eqn:Lb.
    + assert (y' = y) as -> by congruence.
      destruct (IH bs eq_refl Lb) as (x' & -> & Hx'). eauto.
    + assert (b = y) as -> by congruence. apply last_None in Lb as ->.
      destruct l as [|a l]; [simpl; eauto|].
      simpl in T. destruct (f a); simpl in T; [|done].
      destruct (traverse f l); simpl in T; done.
Qed.

Lemma split_Ok s sep pieces :
  Py.split s sep = Ok pieces ->
  sep <> [] /\ pieces = Py.split_pieces (length s) sep s.
Proof. unfold Py.split. destruct sep; [done|]. by intros [= <-]. Qed.

End PyFacts.

(** ** Facts about the matcher *)

Module ReFacts.
Import Re.

Lemma match_rep_one k a s n :
  match_rep k a 1 (Some 1%nat) s n
  = match s with
    | c :: s' => if atom_matches a c then k s' (S n) else None
    | [] => None
    end.
Proof.
  destruct s as [|c s']; simpl; [done|].
  destruct (atom_matches a c); simpl; [|done].
  destruct s' as [|d s'']; simpl.
  - by destruct (k [] (S n)).
  - rewrite andb_false_r. by destruct (k (d :: s'') (S n)).
Qed.

Ltac same_count H :=
  match goal with
  | |- ?k ?rest ?x = _ =>
      match type of H with
      | k rest ?y = _ => replace x with y by lia; exact H
      end
  end.

(** A greedy star followed by a continuation that refuses the characters of
    the star: the star takes the whole run. *)
Lemma match_rep_star_run k a s n :
  (forall c s' m, atom_matches a c = true -> k (c :: s') m = None) ->
  forall r, match_rep k a 0 None s n = Some r <->
    exists run rest, Forall (fun c => atom_matches a c = true) run
      /\ s = run ++ rest /\ k rest (n + length run)%nat = Some r.
Proof.
  intros Hk. revert n. induction s as [|c s IH]; intros n r; simpl.
  - split.
    + intros H. exists [], []. simpl. rewrite Nat.add_0_r. done.
    + intros (run & rest & _ & Hs & Hr).
      symmetry in Hs. apply app_eq_nil in Hs as [-> ->].
      simpl in Hr. by rewrite Nat.add_0_r in Hr.
  - destruct (atom_matches a c) eqn:Hc; simpl.
    + rewrite (Hk c s n Hc).
      assert (Heq : match match_rep k a 0 None s (S n) with
                    | Some r0 => Some r0 | None => None end
                    = match_rep k a 0 None s (S n)) by (by case_match).
      rewrite Heq, IH. split.
      * intros (run & rest & Hrun & -> & Hr).
        exists (c :: run), rest. simpl. split_and!; auto. same_count Hr.
      * intros (run & rest & Hrun & Hs & Hr).
        destruct run as [|c' run]; simpl in *.
        { subst rest. rewrite (Hk c s _ Hc) in Hr. discriminate. }
        injection Hs as <- ->. apply Forall_cons in Hrun as [_ Hrun].
        exists run, rest. split_and!; auto. same_count Hr.
    + split.
      * intros H. exists [], (c :: s). simpl. rewrite Nat.add_0_r. done.
      * intros (run & rest & Hrun & Hs & Hr).
        destruct run as [|c' run]; simpl in *.
        { subst rest. by rewrite Nat.add_0_r in Hr. }
        injection Hs as <- ->. apply Forall_cons in Hrun as [Hc' _]. congruence.
Qed.

Lemma scan_no_match r s pos :
  (forall k, match_at false r (drop k s) = None) -> scan r s pos 0 = [].
Proof.
  revert pos. induction s as [|c s IH]; intros pos H;
    pose proof (H 0%nat) as H0; rewrite drop_0 in H0; simpl; rewrite H0.
  - done.
  - apply IH. intros k. apply (H (S k)).
Qed.

Lemma scan_first_match r s pos k l :
  never_empty r ->
  match_at false r (drop k s) = Some l ->
  (forall j, (j < k)%nat -> match_at false r (drop j s) = None) ->
  exists rest, scan r s pos 0 = ((pos + k)%nat, (pos + k + l)%nat) :: rest.
Proof.
  intros Hne. revert s pos. induction k as [|k IH]; intros s pos Hm Hbefore.
  - rewrite drop_0 in Hm. destruct l as [|l]; [by apply Hne in Hm|].
    rewrite !Nat.add_0_r.
    destruct s as [|c s]; simpl; rewrite Hm; eauto.
  - destruct s as [|c s].
    + simpl in Hm. pose proof (Hbefore 0%nat ltac:(lia)) as H0.
      rewrite drop_0 in H0. congruence.
    + pose proof (Hbefore 0%nat ltac:(lia)) as H0. rewrite drop_0 in H0.
      simpl. rewrite H0.
      destruct (IH s (S pos)) as [rest Hrest].
      * exact Hm.
      * intros j Hj. apply (Hbefore (S j)). lia.
      * exists rest. rewrite Hrest. f_equal. f_equal; lia.
Qed.


Lemma first_match_cases r s :
  (forall k, match_at false r (drop k s) = None)
  \/ exists k l, match_at false r (drop k s) = Some l
       /\ forall j, (j < k)%nat -> match_at false r (drop j s) = None.
Proof.
  induction s as [|c s IH].
  - destruct (match_at false r []) as [l|] eqn:E.
    + right. exists 0%nat, l. split; [done | lia].
    + left. intros k. by rewrite drop_nil.
  - destruct (match_at false r (c :: s)) as [l|] eqn:E.
    + right. exists 0%nat, l. split; [done | lia].
    + destruct IH as [IH | (k & l & Hk & Hlt)].
      * left. intros [|k]; [done | apply IH].
      * right. exists (S k), l. split; [done|].
        intros [|j] Hj; [done | apply Hlt; lia].
Qed.

Lemma atom_space c : atom_matches (ASet false [CSpace]) c = Uni.is_space c.
Proof. simpl. by rewrite orb_false_r. Qed.

Lemma toc_marker_match s l :
  match_at false Pat.toc_marker s = Some l <->
  exists ws rest,
    Forall (fun c => Uni.is_space c = true) ws
    /\ s = [NL; ch "目"] ++ ws ++ [ch "录"] ++ rest
    /\ l = (3 + length ws)%nat.
Proof.
  unfold Pat.toc_marker.
  cbn [match_at match_branch one star p_atom p_min p_max].
  set (k3 := match_rep (accept false) (ALit (ch "录")) 1 (Some 1%nat)).
  set (k2 := match_rep k3 (ASet false [CSpace]) 0 None).
  assert (Hk3 : forall c s' m,
             atom_matches (ASet false [CSpace]) c = true -> k3 (c :: s') m = None).
  { intros c s' m Hc. unfold k3. rewrite match_rep_one.
    cbn [atom_matches]. destruct (N.eqb_spec c (ch "录")) as [->|]; [|done].
    rewrite atom_space in Hc. vm_compute in Hc. discriminate. }
  assert (Hsome : forall o : option nat,
             match o with Some n => Some n | None => None end = o)
    by (by intros []).
  rewrite Hsome, match_rep_one.
  destruct s as [|c0 s]; [split; [done | intros (?&?&?&[=]&?)]|].
  cbn [atom_matches].
  destruct (N.eqb_spec c0 NL) as [->|Hc0];
    [| split; [done | intros (?&?&?&[=]&?); congruence]].
  rewrite match_rep_one.
  destruct s as [|c1 s]; [split; [done | intros (?&?&?&[=]&?)]|].
  cbn [atom_matches].
  destruct (N.eqb_spec c1 (ch "目")) as [->|Hc1];
    [| split; [done | intros (?&?&?&[=]&?); congruence]].
  fold k2. unfold k2. rewrite (match_rep_star_run k3 _ s 2 Hk3). split.
  - intros (run & rest & Hrun & -> & Hr).
    unfold k3 in Hr. rewrite match_rep_one in Hr.
    destruct rest as [|c2 rest]; [done|]. cbn [atom_matches] in Hr.
    destruct (N.eqb_spec c2 (ch "录")) as [->|]; [|done].
    unfold accept in Hr. simpl in Hr. injection Hr as <-.
    exists run, rest. split_and!; [|done|lia].
    eapply Forall_impl; [exact Hrun|]. intros c Hc.
    rewrite <- atom_space. exact Hc.
  - intros (ws & rest & Hws & [= ->] & ->).
    exists ws, ([ch "录"] ++ rest). split_and!; [|done|].
    + eapply Forall_impl; [exact Hws|]. intros c Hc.
      change (atom_matches (ASet false [CSpace]) c = true).
      rewrite atom_space. exact Hc.
    + unfold k3. rewrite match_rep_one. cbn [app atom_matches].
      rewrite N.eqb_refl. unfold accept. simpl. reflexivity.
Qed.

Lemma toc_marker_never_empty : never_empty Pat.toc_marker.
Proof.
  intros s H. apply toc_marker_match in H as (ws & rest & _ & _ & Hl). lia.
Qed.

Lemma toc_marker_at_match text k :
  toc_marker_at text k <-> exists l, match_at false Pat.toc_marker (drop k text) = Some l.
Proof.
  unfold toc_marker_at. split.
  - intros (ws & rest & Hws & Hd). exists (3 + length ws)%nat.
    apply toc_marker_match. eauto.
  - intros (l & Hl). apply toc_marker_match in Hl as (ws & rest & Hws & Hd & _).
    eauto.
Qed.

End ReFacts.

(** ** Facts about searching and splitting strings *)

Module StrFacts.

Lemma prefixb_spec p s : Py.prefixb p s = true <-> p `prefix_of` s.
Proof.
  revert s. induction p as [|a p IH]; intros s; simpl.
  - split; [intros _; apply prefix_nil | done].
  - destruct s as [|b s].
    + split; [done | intros [k Hk]; discriminate].
    + rewrite andb_true_iff, IH, N.eqb_eq. split.
      * intros [-> Hp]. by apply prefix_cons.
      * intros [k [= -> ->]]. split; [done | by exists k].
Qed.

Lemma prefixb_false p s : Py.prefixb p s = false <-> ~ p `prefix_of` s.
Proof.
  rewrite <- prefixb_spec. destruct (Py.prefixb p s); split; congruence.
Qed.

Lemma occurs_at_0 sub s : occurs_at sub s 0 <-> sub `prefix_of` s.
Proof. unfold occurs_at. by rewrite drop_0. Qed.

Lemma occurs_at_S sub c s i : occurs_at sub (c :: s) (S i) <-> occurs_at sub s i.
Proof. done. Qed.

Lemma occurs_at_drop sub s k j :
  occurs_at sub (drop k s) j <-> occurs_at sub s (k + j).
Proof. unfold occurs_at. by rewrite drop_drop. Qed.

Lemma occurs_at_bound sub s i :
  sub <> [] -> occurs_at sub s i -> (i + length sub <= length s)%nat.
Proof.
  intros Hne [k Hk]. apply (f_equal length) in Hk.
  rewrite length_drop, length_app in Hk.
  destruct sub; [done|]. simpl in *. lia.
Qed.

Lemma find_Some sep s i :
  Py.find sep s = Some i ->
  occurs_at sep s i /\ forall j, (j < i)%nat -> ~ occurs_at sep s j.
Proof.
  revert i. induction s as [|c s IH]; intros i; simpl.
  - destruct (Py.prefixb sep []) eqn:E; [|done]. intros [= <-].
    split; [by apply occurs_at_0, prefixb_spec | lia].
  - destruct (Py.prefixb sep (c :: s)) eqn:E.
    + intros [= <-]. split; [by apply occurs_at_0, prefixb_spec | lia].
    + destruct (Py.find sep s) as [i'|] eqn:F; [|done]. simpl. intros [= <-].
      destruct (IH i' eq_refl) as [Ho Hlt]. split; [by apply occurs_at_S|].
      intros [|j] Hj.
      * rewrite occurs_at_0. by apply prefixb_false.
      * rewrite occurs_at_S. apply Hlt. lia.
Qed.

Lemma find_None sep s i : Py.find sep s = None -> ~ occurs_at sep s i.
Proof.
  revert i. induction s as [|c s IH]; intros i; simpl.
  - destruct (Py.prefixb sep []) eqn:E; [done|]. intros _.
    unfold occurs_at. rewrite drop_nil. by apply prefixb_false.
  - destruct (Py.prefixb sep (c :: s)) eqn:E; [done|].
    destruct (Py.find sep s) as [i'|] eqn:F; [done|]. intros _.
    destruct i as [|i].
    + rewrite occurs_at_0. by apply prefixb_false.
    + rewrite occurs_at_S. by apply IH.
Qed.

Lemma find_is_Some sep s i : occurs_at sep s i -> is_Some (Py.find sep s).
Proof.
  intros Ho. destruct (Py.find sep s) eqn:F; [done|].
  by apply (find_None _ _ i) in F.
Qed.

Lemma rfind_None sub s j : sub <> [] -> rfind sub s = None -> ~ occurs_at sub s j.
Proof.
  intros Hne. revert j. induction s as [|c s IH]; intros j; simpl.
  - intros _ Ho. unfold occurs_at in Ho. rewrite drop_nil in Ho.
    by apply prefix_nil_inv in Ho.
  - destruct (rfind sub s) as [i'|] eqn:R; [done|].
    destruct (Py.prefixb sub (c :: s)) eqn:E; [done|]. intros _.
    destruct j as [|j].
    + rewrite occurs_at_0. by apply prefixb_false.
    + rewrite occurs_at_S. by apply IH.
Qed.

Lemma rfind_Some sub s i :
  sub <> [] -> rfind sub s = Some i ->
  occurs_at sub s i /\ forall j, occurs_at sub s j -> (j <= i)%nat.
Proof.
  intros Hne. revert i. induction s as [|c s IH]; intros i; simpl.
  - destruct sub; [done|]. done.
  - destruct (rfind sub s) as [i'|] eqn:R.
    + intros [= <-]. destruct (IH i' eq_refl) as [Ho Hmax].
      split; [by apply occurs_at_S|]. intros [|j] Hj; [lia|].
      apply occurs_at_S, Hmax in Hj. lia.
    + destruct (Py.prefixb sub (c :: s)) eqn:E; [|done]. intros [= <-].
      split; [by apply occurs_at_0, prefixb_spec|]. intros [|j] Hj; [lia|].
      apply occurs_at_S in Hj. by apply (rfind_None _ _ j Hne) in R.
Qed.

Lemma rfind_last sub s i :
  sub <> [] -> occurs_at sub s i ->
  (forall j, occurs_at sub s j -> (j <= i)%nat) ->
  rfind sub s = Some i.
Proof.
  intros Hne Ho Hmax. destruct (rfind sub s) as [i'|] eqn:R.
  - destruct (rfind_Some _ _ _ Hne R) as [Ho' Hmax'].
    f_equal. apply Nat.le_antisymm; auto.
  - by apply (rfind_None _ _ i Hne) in R.
Qed.

Lemma occurs_at_split sep s i :
  occurs_at sep s i -> s = take i s ++ sep ++ drop (i + length sep) s.
Proof.
  intros [k Hk]. rewrite <- (take_drop i s) at 1. f_equal.
  rewrite Hk. f_equal. rewrite <- drop_drop, Hk. by rewrite drop_app_length.
Qed.

(** The last piece of a split follows an occurrence of the separator, or is
    the whole string. *)
Lemma split_last fuel sep s :
  exists after, last (Py.split_pieces fuel sep s) = Some after
    /\ (after = s \/ sep ++ after `suffix_of` s).
Proof.
  revert s. induction fuel as [|fuel IH]; intros s; simpl; [eauto|].
  destruct (Py.find sep s) as [i|] eqn:F; [|eauto].
  destruct (IH (drop (i + length sep) s)) as (after & Hlast & Hafter).
  exists after. split.
  - rewrite last_cons, Hlast. done.
  - right. apply find_Some in F as [Ho _]. apply occurs_at_split in Ho.
    destruct Hafter as [-> | Hsuf].
    + rewrite Ho at 2. by apply suffix_app_r.
    + etrans; [exact Hsuf|]. apply suffix_drop.
Qed.

Lemma split_first fuel sep s :
  sep <> [] -> (length s <= fuel)%nat ->
  head (Py.split_pieces fuel sep s) = Some (truncate_at_first sep s).
Proof.
  intros Hne Hfuel. unfold truncate_at_first. destruct fuel as [|fuel]; simpl.
  - destruct s; [|simpl in Hfuel; lia].
    destruct (Py.find sep []) eqn:F; [|done].
    apply find_Some in F as [Ho _]. apply occurs_at_bound in Ho; [|done].
    destruct sep; [done|]. simpl in Ho. lia.
  - by destruct (Py.find sep s).
Qed.

Lemma split_last_rfind fuel sep s :
  sep <> [] -> (length s <= fuel)%nat -> occurrences_apart sep s ->
  last (Py.split_pieces fuel sep s) = Some (after_last_occurrence sep s).
Proof.
  intros Hne. revert s. induction fuel as [|fuel IH]; intros s Hfuel Hapart.
  - destruct s; [|simpl in Hfuel; lia]. simpl. unfold after_last_occurrence.
    destruct (rfind sep []) eqn:R; [|done].
    apply rfind_Some in R as [Ho _]; [|done].
    apply occurs_at_bound in Ho; [|done]. destruct sep; [done|]. simpl in Ho. lia.
  - simpl. destruct (Py.find sep s) as [i|] eqn:F.
    + pose proof (find_Some _ _ _ F) as [Ho Hfirst].
      pose proof (occurs_at_bound _ _ _ Hne Ho) as Hb.
      set (s' := drop (i + length sep) s).
      assert (Hlen : (length s' <= fuel)%nat).
      { unfold s'. rewrite length_drop. destruct sep; [done|]. simpl in *. lia. }
      assert (Hapart' : occurrences_apart sep s').
      { intros a b Ha Hb' Hab. unfold s' in Ha, Hb'.
        apply occurs_at_drop in Ha, Hb'.
        pose proof (Hapart _ _ Ha Hb' ltac:(lia)). lia. }
      rewrite last_cons, (IH s' Hlen Hapart').
      f_equal. unfold after_last_occurrence.
      destruct (rfind sep s') as [j|] eqn:R.
      * apply rfind_Some in R as [Hoj Hmax]; [|done].
        assert (Hr : rfind sep s = Some (i + length sep + j)%nat).
        { apply rfind_last; [done | by apply occurs_at_drop in Hoj |].
          intros p Hp. destruct (decide (p < i + length sep)%nat) as [Hlt|Hge]; [lia|].
          assert (Hp' : occurs_at sep s' (p - (i + length sep))).
          { apply occurs_at_drop. by replace (i + length sep + (p - (i + length sep)))%nat
              with p by lia. }
          apply Hmax in Hp'. lia. }
        rewrite Hr. unfold s'. rewrite drop_drop. f_equal. lia.
      * assert (Hr : rfind sep s = Some i).
        { apply rfind_last; [done | done |].
          intros p Hp. destruct (decide (p <= i)%nat) as [Hle|Hgt]; [done|].
          pose proof (Hapart i p Ho Hp ltac:(lia)) as Hip.
          exfalso. apply (rfind_None sep s' (p - (i + length sep)) Hne R).
          apply occurs_at_drop. by replace (i + length sep + (p - (i + length sep)))%nat
              with p by lia. }
        rewrite Hr. done.
    + simpl. f_equal. unfold after_last_occurrence.
      destruct (rfind sep s) as [j|] eqn:R; [|done].
      apply rfind_Some in R as [Hoj _]; [|done]. by apply find_None with (i:=j) in F.
Qed.

End StrFacts.

(** ** Facts about substrings *)

Module SubFacts.
Import PyFacts StrFacts.

Lemma substring_nil s : substring [] s.
Proof. by exists [], s. Qed.

Lemma substring_prefix r s : r `prefix_of` s -> substring r s.
Proof. intros [k ->]. by exists [], k. Qed.

Lemma substring_suffix r s : r `suffix_of` s -> substring r s.
Proof. intros [k ->]. exists k, []. by rewrite app_nil_r. Qed.

Lemma substring_trans r s t : substring r s -> substring s t -> substring r t.
Proof.
  intros (a & b & ->) (c & d & ->). exists (c ++ a), (b ++ d).
  by rewrite <- !app_assoc.
Qed.

Lemma slice_substring (s : list N) a b : substring (Py.slice s a b) s.
Proof.
  unfold Py.slice.
  set (m := Z.to_nat (Py.clamp (Z.of_nat (length s)) a)).
  set (n := Z.to_nat _).
  exists (take m s), (drop n (drop m s)).
  by rewrite take_drop, take_drop.
Qed.

Lemma slice_from_suffix (s : list N) e : Py.slice_from s e `suffix_of` s.
Proof. apply suffix_drop. Qed.

Lemma split_last_cases s sep pieces after :
  Py.split s sep = Ok pieces -> last pieces = Some after ->
  (Py.find sep s = None /\ after = s) \/ sep ++ after `suffix_of` s.
Proof.
  intros [Hne ->]%split_Ok Hl.
  destruct (length s) as [|fuel] eqn:Hlen.
  - apply length_zero_iff_nil in Hlen as ->. simpl in Hl. injection Hl as <-.
    left. split; [|done]. destruct (Py.find sep []) eqn:F; [|done].
    apply find_Some in F as [Ho _]. apply occurs_at_bound in Ho; [|done].
    destruct sep; [done|]. simpl in Ho. lia.
  - simpl in Hl. destruct (Py.find sep s) as [i|] eqn:F.
    + right. rewrite last_cons in Hl.
      destruct (split_last fuel sep (drop (i + length sep) s)) as (x & Hx & Hcase).
      rewrite Hx in Hl. injection Hl as ->.
      apply find_Some in F as [Ho _]. apply occurs_at_split in Ho.
      destruct Hcase as [-> | Hsuf].
      * rewrite Ho at 2. by apply suffix_app_r.
      * etrans; [exact Hsuf|]. apply suffix_drop.
    + simpl in Hl. injection Hl as <-. left. split; reflexivity.
Qed.

Lemma split_first_prefix s sep parts x :
  Py.split s sep = Ok parts -> head parts = Some x -> x `prefix_of` s.
Proof.
  intros [Hne ->]%split_Ok Hh. rewrite split_first in Hh by done.
  injection Hh as <-. unfold truncate_at_first.
  destruct (Py.find sep s); [apply prefix_take | done].
Qed.

End SubFacts.
Import PyFacts StrFacts SubFacts.

Lemma between_length s from sps : length (Re.between s from sps) = S (length sps).
Proof.
  revert from. induction sps as [|[a b] sps IH]; intros from; simpl; [done|].
  by rewrite IH.
Qed.

(** The two sequences read from a TOC text have the same length. *)
Lemma titles_markers_length toc_text :
  length (toc_section_titles toc_text) = length (toc_section_markers toc_text).
Proof.
  unfold toc_section_titles, toc_section_markers, Re.split, Re.findall.
  rewrite !length_map, length_drop, between_length. lia.
Qed.

Lemma short_doc_is_toc_text text :
  _get_toc_range text = Ok (0, 2500) -> (length text <= 2500)%nat ->
  is_toc_text text text.
Proof.
  intros Hr Hlen. exists 0, 2500. split; [done|].
  unfold Py.slice, Py.clamp. change (0 <? 0) with false.
  change (2500 <? 0) with false. cbv iota.
  rewrite (Z.min_l 0) by lia. rewrite (Z.min_r 2500) by lia.
  rewrite Z.sub_0_r, Nat2Z.id. change (Z.to_nat 0) with 0%nat.
  by rewrite drop_0, firstn_all.
Qed.

(** ** The numeral codec and the keyword catalog *)

(** C9: the two maps round-trip on the single numerals 一 to 十, and the
    integer map sends 11 and 12 to the two-character numerals 十一 and 十二. *)
Theorem numeral_codec_round_trip :
  let '(char_to_int_map, int_to_char_map) := _get_chinese_number_maps in
  Forall (fun c => (n ← dict_get char_to_int_map [c]; dict_get int_to_char_map n)
                   = Ok [c])
         (u "一二三四五六七八九十")
  /\ dict_get int_to_char_map 11 = Ok (u "十一")
  /\ dict_get int_to_char_map 12 = Ok (u "十二").
Proof.
  vm_compute. repeat split; repeat constructor.
Qed.

(** C10: a non-empty custom pattern is returned as it is; the empty pattern
    gives the built-in catalog, the fourteen phrases joined by [|]; the
    result depends on the argument only. *)
Theorem keyword_catalog_contract :
  (forall custom : list N, custom <> [] -> _get_mda_keywords_pattern custom = custom)
  /\ _get_mda_keywords_pattern [] = default_keywords
  /\ default_keywords = join (u "|") mda_phrases
  /\ length mda_phrases = 14%nat.
Proof.
  split; [|split; [|split]].
  - intros [|c s] H; [congruence | reflexivity].
  - reflexivity.
  - vm_compute. reflexivity.
  - reflexivity.
Qed.

Lemma keyword_catalog_contract_witness :
  u "a|b" <> [] /\ _get_mda_keywords_pattern (u "a|b") = u "a|b".
Proof.
  assert (H : u "a|b" <> []) by (vm_compute; discriminate).
  split; [exact H | exact (proj1 keyword_catalog_contract (u "a|b") H)].
Defined.

(** ** The TOC locator *)

(** C8: the locator always returns; its result is [(k, k + 2000)] for the
    least offset [k] at which the TOC marker stands, and [(0, 2500)] when the
    marker stands nowhere, whatever the length of the text. *)
Theorem toc_locator_contract (text : list N) :
  (exists k, toc_marker_at text k
     /\ (forall j, (j < k)%nat -> ~ toc_marker_at text j)
     /\ _get_toc_range text = Ok (Z.of_nat k, Z.of_nat k + 2000))
  \/ ((forall k, ~ toc_marker_at text k)
      /\ _get_toc_range text = Ok (0, 2500)).
Proof.
  unfold _get_toc_range, Re.spans.
  destruct (ReFacts.first_match_cases Pat.toc_marker text)
    as [Hnone | (k & l & Hk & Hlt)].
  - right. split.
    + intros k (l & Hl)%ReFacts.toc_marker_at_match. rewrite Hnone in Hl. done.
    + by rewrite (ReFacts.scan_no_match _ _ 0 Hnone).
  - left. exists k. split_and!.
    + apply ReFacts.toc_marker_at_match. eauto.
    + intros j Hj (l' & Hl')%ReFacts.toc_marker_at_match.
      rewrite (Hlt j Hj) in Hl'. done.
    + destruct (ReFacts.scan_first_match _ text 0 k l
                  ReFacts.toc_marker_never_empty Hk Hlt) as [rest ->].
      cbn [map fst]. rewrite index_first. reflexivity.
Qed.

(** ** The orchestrator *)

Section Orchestrator.
Variable E : RegexEngine.

(** C1: [extract_mda] always returns a string, and the empty string when both
    strategies raise. *)
Theorem extract_mda_never_raises (text keywords_pattern : list N) :
  (exists s, extract_mda E text keywords_pattern = Ok s)
  /\ (raises (_extract_mda_via_toc E text keywords_pattern) ->
      raises (_extract_mda_via_keyword_search E text keywords_pattern) ->
      extract_mda E text keywords_pattern = Ok []).
Proof.
  unfold extract_mda, try_except, try_catch, raises. split.
  - destruct (_extract_mda_via_toc E text keywords_pattern); eauto.
    destruct (_extract_mda_via_keyword_search E text keywords_pattern); eauto.
  - intros [e1 ->] [e2 ->]. reflexivity.
Qed.

End Orchestrator.

Lemma extract_mda_never_raises_witness :
  extract_mda py_re (u "三董事会报告") [] = Ok [].
Proof.
  apply (proj2 (extract_mda_never_raises py_re (u "三董事会报告") [])).
  - exists IndexError. vm_compute. reflexivity.
  - exists IndexError. vm_compute. reflexivity.
Defined.

(** ** The TOC-based extractor *)

(** C2, evaluated on the synthetic document: the extractor returns the header
    rebuilt without its space followed by all the text after the TOC range,
    not the text between the 第三节 and 第四节 headers. *)
Theorem toc_extractor_on_synthetic_doc :
  _extract_mda_via_toc py_re synthetic_doc []
  = Ok (u "第三节管理层讨论与分析" ++ synthetic_body)
  /\ u "第三节管理层讨论与分析" ++ synthetic_body <> synthetic_mda_text
  /\ u "第三节管理层讨论与分析" ++ synthetic_body
     <> u "第三节 管理层讨论与分析" ++ synthetic_mda_text.
Proof.
  split_and!.
  - vm_compute. reflexivity.
  - vm_compute. discriminate.
  - vm_compute. discriminate.
Qed.

Section Toc.
Variable E : RegexEngine.

(** C4: when the TOC has entries and the MD&A entry is the last one, the
    extractor raises IndexError, and [extract_mda] goes on with the keyword
    search. *)
Theorem toc_last_entry_raises (text keywords_pattern toc_text : list N) (i : Z) :
  is_toc_text text toc_text ->
  toc_section_titles toc_text <> [] ->
  toc_section_markers toc_text <> [] ->
  mda_toc_index E (_get_mda_keywords_pattern keywords_pattern)
    (toc_section_titles toc_text) = Ok i ->
  i + 1 = Z.of_nat (length (toc_section_titles toc_text)) ->
  _extract_mda_via_toc E text keywords_pattern = Raise IndexError
  /\ extract_mda E text keywords_pattern
     = try_except (_extract_mda_via_keyword_search E text keywords_pattern) (Ok []).
Proof.
  intros (s & e & Hrange & ->) Ht Hm Hi Hlast.
  assert (Hr : _extract_mda_via_toc E text keywords_pattern = Raise IndexError).
  { unfold _extract_mda_via_toc. rewrite Hrange. simpl.
    pose proof (titles_markers_length (Py.slice text s e)) as Hlen.
    destruct (toc_section_titles (Py.slice text s e)) as [|t ts] eqn:Et; [done|].
    destruct (toc_section_markers (Py.slice text s e)) as [|m ms] eqn:Em; [done|].
    rewrite Hi. simpl.
    assert (Hnext : Py.index (m :: ms) (i + 1) = Raise (A:=list N) IndexError).
    { apply index_past_end. rewrite <- Hlen. lia. }
    destruct (Py.index (m :: ms) i) as [mk|e1] eqn:E1; simpl;
      [| by rewrite (index_raise _ _ _ E1)].
    destruct (Py.index (t :: ts) i) as [tt|e2] eqn:E2; simpl;
      [| by rewrite (index_raise _ _ _ E2)].
    by rewrite Hnext. }
  split; [exact Hr|]. unfold extract_mda. rewrite Hr. reflexivity.
Qed.

Lemma next_header_key_error num header :
  dict_get (_get_chinese_number_maps.1) num = Raise KeyError ->
  next_section_header num header = Raise KeyError.
Proof.
  intros Hkey. unfold next_section_header.
  change (let '(char_to_int_map, int_to_char_map) := _get_chinese_number_maps in
     n ← dict_get char_to_int_map num;
     next ← dict_get int_to_char_map (n + 1);
     Ok ([NL] ++ next ++ Re.sub_empty Pat.cjk_run header))
    with (n ← dict_get (_get_chinese_number_maps.1) num;
          next ← dict_get (_get_chinese_number_maps.2) (n + 1);
          Ok ([NL] ++ next ++ Re.sub_empty Pat.cjk_run header)).
  by rewrite Hkey.
Qed.

(** C6, amended: with TOC entries of which none contains the keyword pattern
    the extractor raises IndexError.  Without TOC entries it returns the
    empty string whenever no numeral is collected near the keywords (the
    keyword may be absent, or present without a numeral in its window), it
    passes on the exception of the search for the keywords, and once numerals
    are collected it raises IndexError when the header pattern matches
    nowhere and KeyError when the most common numeral is no key of the
    numeral map. *)
Theorem toc_failure_signalling (text keywords_pattern toc_text : list N) :
  is_toc_text text toc_text ->
  (toc_section_titles toc_text <> [] ->
   no_title_matches E toc_text keywords_pattern ->
   _extract_mda_via_toc E text keywords_pattern = Raise IndexError)
  /\ (toc_section_titles toc_text = [] ->
      (numbers_found E (_get_mda_keywords_pattern keywords_pattern) text = Ok [] ->
       _extract_mda_via_toc E text keywords_pattern = Ok [])
      /\ (forall e,
            numbers_found E (_get_mda_keywords_pattern keywords_pattern) text
            = Raise e ->
            _extract_mda_via_toc E text keywords_pattern = Raise e)
      /\ (forall nums,
            numbers_found E (_get_mda_keywords_pattern keywords_pattern) text
            = Ok nums ->
            nums <> [] ->
            re_findall E
              (Pat.header_prefix ++ _get_mda_keywords_pattern keywords_pattern)
              text = Ok [] ->
            _extract_mda_via_toc E text keywords_pattern = Raise IndexError)
      /\ (forall nums top header,
            numbers_found E (_get_mda_keywords_pattern keywords_pattern) text
            = Ok nums ->
            Py.index (Counter.most_common1 (Counter.of_list nums)) 0 = Ok top ->
            mda_header_full_match E
              (_get_mda_keywords_pattern keywords_pattern) text = Ok header ->
            dict_get (_get_chinese_number_maps.1) top.1 = Raise KeyError ->
            _extract_mda_via_toc E text keywords_pattern = Raise KeyError)).
Proof.
  intros (s & e & Hrange & ->). split.
  - intros Ht Hno. unfold _extract_mda_via_toc. rewrite Hrange. simpl.
    pose proof (titles_markers_length (Py.slice text s e)) as Hlen.
    unfold no_title_matches in Hno.
    destruct (toc_section_titles (Py.slice text s e)) as [|t ts] eqn:Et; [done|].
    destruct (toc_section_markers (Py.slice text s e)) as [|m ms] eqn:Em; [done|].
    unfold mda_toc_index. rewrite (traverse_all_false _ _ Hno). simpl.
    rewrite true_indices_all_false. reflexivity.
  - intros Ht.
    assert (Hbranch : _extract_mda_via_toc E text keywords_pattern
      = (nums ← numbers_found E (_get_mda_keywords_pattern keywords_pattern) text;
         match nums with
         | _ :: _ =>
             top ← Py.index (Counter.most_common1 (Counter.of_list nums)) 0;
             header ← mda_header_full_match E
                        (_get_mda_keywords_pattern keywords_pattern) text;
             next ← next_section_header top.1 header;
             pieces ← Py.split text header;
             after ← Py.index pieces (-1);
             parts ← Py.split after next;
             Py.index parts 0
         | [] => Ok []
         end)).
    { unfold _extract_mda_via_toc. rewrite Hrange. simpl. by rewrite Ht. }
    rewrite Hbranch. clear Hbranch. split_and!.
    + by intros ->.
    + by intros e0 ->.
    + intros nums -> Hne Hfound. cbn [mbind result_bind].
      destruct nums as [|n ns]; [done|].
      destruct (Py.index _ 0) as [top|e1] eqn:Htop; cbn [mbind result_bind];
        [| by rewrite (index_raise _ _ _ Htop)].
      unfold mda_header_full_match. by rewrite Hfound.
    + intros nums top header -> Htop Hheader Hkey. cbn [mbind result_bind].
      destruct nums as [|n ns]; [done|].
      rewrite Htop. cbn [mbind result_bind].
      rewrite Hheader. cbn [mbind result_bind].
      by rewrite (next_header_key_error _ _ Hkey).
Qed.

(** Without TOC entries the extractor raises when the keyword search raises,
    returns the empty string when the keyword search finds no numeral, and
    otherwise returns the result of the keyword search without the header
    that the keyword search puts in front. *)
Lemma toc_fallback_vs_keyword_search (text keywords_pattern toc_text : list N) :
  is_toc_text text toc_text ->
  toc_section_titles toc_text = [] \/ toc_section_markers toc_text = [] ->
  match _extract_mda_via_keyword_search E text keywords_pattern with
  | Raise e => _extract_mda_via_toc E text keywords_pattern = Raise e
  | Ok r =>
      (r = [] /\ _extract_mda_via_toc E text keywords_pattern = Ok []
       /\ numbers_found E (_get_mda_keywords_pattern keywords_pattern) text = Ok [])
      \/ exists header content,
           mda_header_full_match E (_get_mda_keywords_pattern keywords_pattern) text
             = Ok header
           /\ _extract_mda_via_toc E text keywords_pattern = Ok content
           /\ r = header ++ content
  end.
Proof.
  intros (s & e & Hrange & ->) Hempty.
  unfold _extract_mda_via_toc, _extract_mda_via_keyword_search.
  rewrite Hrange. simpl.
  set (pat := _get_mda_keywords_pattern keywords_pattern).
  set (toc := Py.slice text s e) in *.
  assert (Hsel : forall (X Y : result (list N)),
    match toc_section_titles toc, toc_section_markers toc with
    | _ :: _, _ :: _ => X
    | _, _ => Y
    end = Y).
  { intros X Y. destruct Hempty as [-> | ->]; [done|].
    by destruct (toc_section_titles toc). }
  rewrite Hsel. clear Hsel.
  destruct (numbers_found E pat text) as [nums|e0]; simpl; [|done].
  destruct nums as [|n ns]; [left; done|].
  destruct (Py.index _ 0) as [top|e1]; simpl; [|done].
  destruct (mda_header_full_match E pat text) as [header|e2]; simpl; [|done].
  destruct (next_section_header top.1 header) as [next|e3]; simpl; [|done].
  destruct (Py.split text header) as [pieces|e4]; simpl; [|done].
  destruct (Py.index pieces (-1)) as [after|e5]; simpl; [|done].
  destruct (Py.split after next) as [parts|e6]; simpl; [|done].
  destruct (Py.index parts 0) as [content|e7]; simpl; [|done].
  right. eauto.
Qed.

End Toc.

Lemma last_entry_doc_toc : is_toc_text last_entry_doc last_entry_doc.
Proof. apply short_doc_is_toc_text; vm_compute; [reflexivity | lia]. Qed.

Lemma no_keyword_doc_toc : is_toc_text no_keyword_doc no_keyword_doc.
Proof. apply short_doc_is_toc_text; vm_compute; [reflexivity | lia]. Qed.

Lemma other_entry_doc_toc : is_toc_text other_entry_doc other_entry_doc.
Proof. apply short_doc_is_toc_text; vm_compute; [reflexivity | lia]. Qed.

Lemma toc_last_entry_raises_witness :
  _extract_mda_via_toc py_re last_entry_doc [] = Raise IndexError
  /\ extract_mda py_re last_entry_doc []
     = try_except (_extract_mda_via_keyword_search py_re last_entry_doc []) (Ok []).
Proof.
  apply (toc_last_entry_raises py_re last_entry_doc [] last_entry_doc 0).
  - exact last_entry_doc_toc.
  - vm_compute. discriminate.
  - vm_compute. discriminate.
  - vm_compute. reflexivity.
  - vm_compute. reflexivity.
Defined.

(** C6 as stated fails: a document without any MD&A keyword makes the
    extractor return the empty string. *)
Lemma toc_returns_empty_without_raising :
  ~ (forall text keywords_pattern,
       keyword_absent py_re text keywords_pattern ->
       raises (_extract_mda_via_toc py_re text keywords_pattern)).
Proof.
  intros H. destruct (H no_keyword_doc []) as [e He].
  - vm_compute. reflexivity.
  - vm_compute in He. discriminate.
Qed.

Lemma keyword_only_doc_toc : is_toc_text keyword_only_doc keyword_only_doc.
Proof. apply short_doc_is_toc_text; vm_compute; [reflexivity | lia]. Qed.

Lemma headless_doc_toc : is_toc_text headless_doc headless_doc.
Proof. apply short_doc_is_toc_text; vm_compute; [reflexivity | lia]. Qed.

Lemma compound_numeral_doc_toc :
  is_toc_text compound_numeral_doc compound_numeral_doc.
Proof. apply short_doc_is_toc_text; vm_compute; [reflexivity | lia]. Qed.

Lemma toc_failure_signalling_witness :
  _extract_mda_via_toc py_re other_entry_doc [] = Raise IndexError
  /\ _extract_mda_via_toc py_re no_keyword_doc [] = Ok []
  /\ _extract_mda_via_toc py_re keyword_only_doc [] = Ok []
  /\ _extract_mda_via_toc py_re headless_doc [] = Raise IndexError
  /\ _extract_mda_via_toc py_re compound_numeral_doc [] = Raise KeyError.
Proof.
  split_and!.
  - apply (proj1 (toc_failure_signalling py_re other_entry_doc [] other_entry_doc
                    other_entry_doc_toc)).
    + vm_compute. discriminate.
    + intros title Ht. vm_compute in Ht.
      apply list_elem_of_singleton in Ht. subst title. vm_compute. reflexivity.
  - apply (proj1 (proj2 (toc_failure_signalling py_re no_keyword_doc []
                           no_keyword_doc no_keyword_doc_toc)
                    ltac:(vm_compute; reflexivity))).
    vm_compute. reflexivity.
  - apply (proj1 (proj2 (toc_failure_signalling py_re keyword_only_doc []
                           keyword_only_doc keyword_only_doc_toc)
                    ltac:(vm_compute; reflexivity))).
    vm_compute. reflexivity.
  - apply (proj1 (proj2 (proj2 (proj2 (toc_failure_signalling py_re headless_doc
                                         [] headless_doc headless_doc_toc)
                                  ltac:(vm_compute; reflexivity)))))
      with (nums := [u "三"]).
    + vm_compute. reflexivity.
    + discriminate.
    + vm_compute. reflexivity.
  - apply (proj2 (proj2 (proj2 (proj2 (toc_failure_signalling py_re
                                         compound_numeral_doc []
                                         compound_numeral_doc
                                         compound_numeral_doc_toc)
                                  ltac:(vm_compute; reflexivity)))))
      with (nums := [u "十一"; u "十二"]) (top := (u "十一", 1%nat))
           (header := u "十一、董事会报告").
    + vm_compute. reflexivity.
    + vm_compute. reflexivity.
    + vm_compute. reflexivity.
    + vm_compute. reflexivity.
Defined.

(** C7, evaluated on a document without section markers: the sub-fallback
    returns the text after the header, the keyword search returns the header
    and that text. *)
Theorem toc_fallback_on_untitled_doc :
  toc_section_titles untitled_doc = []
  /\ toc_section_markers untitled_doc = []
  /\ _extract_mda_via_toc py_re untitled_doc [] = Ok (u "正文")
  /\ _extract_mda_via_keyword_search py_re untitled_doc []
     = Ok (u "三、董事会报告正文")
  /\ _extract_mda_via_toc py_re untitled_doc []
     <> _extract_mda_via_keyword_search py_re untitled_doc [].
Proof.
  split_and!; vm_compute; try reflexivity. discriminate.
Qed.

(** ** The keyword-search extractor *)

Section KeywordSearch.
Variable E : RegexEngine.

Lemma header_full_match_inv pat text header :
  mda_header_full_match E pat text = Ok header ->
  exists found m,
    re_findall E (Pat.header_prefix ++ pat) text = Ok found
    /\ last found = Some (VStr m)
    /\ header = Py.remove_char NL m.
Proof.
  unfold mda_header_full_match. intros H.
  destruct (re_findall E _ text) as [found|] eqn:Hf; simpl in H; [|done].
  destruct (traverse replace_newline found) as [cleaned|] eqn:Ht; simpl in H; [|done].
  apply index_last_Ok in H.
  destruct (traverse_last _ _ _ _ Ht H) as ([m|t] & Hl & Hx); simpl in Hx; [|done].
  injection Hx as <-. eauto.
Qed.

(** C3, amended: when numerals were found and the extractor returns, the
    header is the last element of [findall] for the header pattern with every
    newline removed, and, provided no two occurrences of that header in the
    text overlap, the result is the header followed by the text after its
    last occurrence (all the text when it does not occur), cut at the first
    occurrence of the next-section header. *)
Theorem keyword_search_result (text keywords_pattern r : list N)
    (nums : list (list N)) :
  numbers_found E (_get_mda_keywords_pattern keywords_pattern) text = Ok nums ->
  nums <> [] ->
  _extract_mda_via_keyword_search E text keywords_pattern = Ok r ->
  exists top found m next,
    Py.index (Counter.most_common1 (Counter.of_list nums)) 0 = Ok top
    /\ re_findall E
         (Pat.header_prefix ++ _get_mda_keywords_pattern keywords_pattern) text
       = Ok found
    /\ last found = Some (VStr m)
    /\ next_section_header top.1 (Py.remove_char NL m) = Ok next
    /\ (occurrences_apart (Py.remove_char NL m) text ->
        r = Py.remove_char NL m
            ++ truncate_at_first next
                 (after_last_occurrence (Py.remove_char NL m) text)).
Proof.
  intros Hnums Hne Hr. unfold _extract_mda_via_keyword_search in Hr.
  rewrite Hnums in Hr. simpl in Hr. destruct nums as [|n ns]; [done|].
  destruct (Py.index _ 0) as [top|] eqn:Htop; simpl in Hr; [|done].
  destruct (mda_header_full_match E _ text) as [header|] eqn:Hh; simpl in Hr; [|done].
  destruct (next_section_header top.1 header) as [next|] eqn:Hn; simpl in Hr; [|done].
  destruct (Py.split text header) as [pieces|] eqn:Hs; simpl in Hr; [|done].
  destruct (Py.index pieces (-1)) as [after|] eqn:Ha; simpl in Hr; [|done].
  destruct (Py.split after next) as [parts|] eqn:Hp; simpl in Hr; [|done].
  destruct (Py.index parts 0) as [content|] eqn:Hc; simpl in Hr; [|done].
  injection Hr as <-.
  apply header_full_match_inv in Hh as (found & m & Hf & Hl & ->).
  exists top, found, m, next. split_and!; try done.
  intros Hapart.
  apply split_Ok in Hs as [Hhne ->]. apply split_Ok in Hp as [Hnne ->].
  apply index_last_Ok in Ha. apply index_first_Ok in Hc.
  rewrite split_last_rfind in Ha by done. injection Ha as <-.
  rewrite split_first in Hc by done. injection Hc as <-. done.
Qed.

End KeywordSearch.

(** C3 as stated fails: for a header broken over two lines the extractor
    removes the inner newline too, and the header so cleaned occurs nowhere
    in the text. *)
Lemma keyword_search_differs_from_spec :
  ~ (forall text keywords_pattern nums r,
       numbers_found py_re (_get_mda_keywords_pattern keywords_pattern) text = Ok nums ->
       nums <> [] ->
       _extract_mda_via_keyword_search py_re text keywords_pattern = Ok r ->
       keyword_search_spec py_re text keywords_pattern = Ok r).
Proof.
  intros H.
  specialize (H broken_header_doc broken_header_pattern [u "三"]
                (u "三、管理层讨论与分析公司年度报告全文如下所示" ++ [NL] ++ u "三、管理层"
                 ++ [NL] ++ u "讨论与分析" ++ [NL] ++ u "本年度经营情况良好")).
  vm_compute in H. specialize (H eq_refl ltac:(discriminate) eq_refl).
  discriminate H.
Qed.

Lemma keyword_search_result_witness :
  exists top found m next,
    Py.index (Counter.most_common1 (Counter.of_list [u "三"; u "四"])) 0 = Ok top
    /\ re_findall py_re (Pat.header_prefix ++ _get_mda_keywords_pattern []) untitled_doc
       = Ok found
    /\ last found = Some (VStr m)
    /\ next_section_header top.1 (Py.remove_char NL m) = Ok next
    /\ (occurrences_apart (Py.remove_char NL m) untitled_doc ->
        u "三、董事会报告正文"
        = Py.remove_char NL m
            ++ truncate_at_first next
                 (after_last_occurrence (Py.remove_char NL m) untitled_doc)).
Proof.
  apply (keyword_search_result py_re untitled_doc [] (u "三、董事会报告正文")
           [u "三"; u "四"]).
  - vm_compute. reflexivity.
  - discriminate.
  - vm_compute. reflexivity.
Defined.

(** ** The shape of the result *)

Section Shape.
Variable E : RegexEngine.

Lemma two_part_search_shape body mask next r :
  toc_two_part_search E body mask next = Ok r -> substring r body.
Proof.
  unfold toc_two_part_search. intros H.
  destruct (unpack2 (Re.split Pat.whitespace mask)) as [[p1 p2]|];
    simpl in H; [|done].
  destruct (re_finditer E p2 body) as [starts|]; simpl in H; [|done].
  destruct (confirmed_start E p1 body _) as [st|]; simpl in H; [|done].
  destruct (unpack2 (Re.split Pat.whitespace next)) as [[q1 q2]|];
    simpl in H; [|done].
  destruct (re_finditer E q2 body) as [ends|]; simpl in H; [|done].
  destruct (confirmed_end E q1 body st _) as [en|]; simpl in H; [|done].
  destruct st as [a|]; [|done]. destruct en as [b|]; [|done].
  injection H as <-. apply slice_substring.
Qed.

Lemma literal_split_shape body mask next r :
  toc_literal_split body mask next = Ok r ->
  substring r body \/ (Py.find mask body = None /\ r `prefix_of` mask ++ body).
Proof.
  unfold toc_literal_split. intros H.
  destruct (Py.split body mask) as [pieces|] eqn:Hs; simpl in H; [|done].
  destruct (Py.index pieces (-1)) as [after|] eqn:Ha; simpl in H; [|done].
  destruct (Py.split (mask ++ after) next) as [parts|] eqn:Hp; simpl in H; [|done].
  apply index_last_Ok in Ha. apply index_first_Ok in H.
  pose proof (split_first_prefix _ _ _ _ Hp H) as Hpre.
  destruct (split_last_cases _ _ _ _ Hs Ha) as [[Hnone ->] | Hsuf].
  - right. done.
  - left. eapply substring_trans; [by apply substring_prefix|].
    by apply substring_suffix.
Qed.

Lemma toc_header_literal_unique text keywords_pattern h1 body1 h2 body2 :
  toc_header_literal E text keywords_pattern h1 body1 ->
  toc_header_literal E text keywords_pattern h2 body2 ->
  h1 = h2 /\ body1 = body2.
Proof.
  intros (s1 & e1 & i1 & m1 & t1 & Hr1 & Hi1 & Hm1 & Ht1 & -> & ->)
         (s2 & e2 & i2 & m2 & t2 & Hr2 & Hi2 & Hm2 & Ht2 & -> & ->).
  rewrite Hr1 in Hr2. injection Hr2 as <- <-.
  rewrite Hi1 in Hi2. injection Hi2 as <-.
  rewrite Hm1 in Hm2. injection Hm2 as <-.
  rewrite Ht1 in Ht2. injection Ht2 as <-. done.
Qed.

Lemma toc_header_literal_suffix text keywords_pattern h body :
  toc_header_literal E text keywords_pattern h body -> body `suffix_of` text.
Proof.
  intros (s & e & i & m & t & _ & _ & _ & _ & _ & ->). apply slice_from_suffix.
Qed.

Lemma toc_result_shape text keywords_pattern r :
  _extract_mda_via_toc E text keywords_pattern = Ok r ->
  substring r text
  \/ exists h body, toc_header_literal E text keywords_pattern h body
       /\ Py.find h body = None /\ r `prefix_of` h ++ body.
Proof.
  unfold _extract_mda_via_toc. intros H.
  destruct (_get_toc_range text) as [[s e]|] eqn:Hrange; simpl in H; [|done].
  set (toc := Py.slice text s e) in *.
  destruct (toc_section_titles toc) as [|t ts] eqn:Ht;
    [| destruct (toc_section_markers toc) as [|m ms] eqn:Hm].
  3: {
    destruct (mda_toc_index E _ _) as [i|] eqn:Hi; simpl in H; [|done].
    destruct (Py.index (m :: ms) i) as [marker|] eqn:Hmk; simpl in H; [|done].
    destruct (Py.index (t :: ts) i) as [title|] eqn:Htt; simpl in H; [|done].
    destruct (Py.index (m :: ms) (i + 1)) as [nm|]; simpl in H; [|done].
    destruct (Py.index (t :: ts) (i + 1)) as [nt|]; simpl in H; [|done].
    unfold try_except, try_catch in H.
    destruct (toc_two_part_search E _ _ _) as [r0|] eqn:H2.
    - injection H as <-. left. apply two_part_search_shape in H2.
      eapply substring_trans; [exact H2|].
      apply substring_suffix, slice_from_suffix.
    - simpl in H. apply literal_split_shape in H as [Hsub | [Hnone Hpre]].
      + left. eapply substring_trans; [exact Hsub|].
        apply substring_suffix, slice_from_suffix.
      + right. eexists _, _. split_and!; [|exact Hnone|exact Hpre].
        exists s, e, i, marker, title. fold toc. rewrite Ht, Hm.
        split_and!; done. }
  all: left.
  all: destruct (numbers_found E _ text) as [nums|]; simpl in H; [|done].
  all: destruct nums as [|n ns]; [injection H as <-; apply substring_nil|].
  all: destruct (Py.index _ 0) as [top|]; simpl in H; [|done].
  all: destruct (mda_header_full_match E _ text) as [header|]; simpl in H; [|done].
  all: destruct (next_section_header top.1 header) as [next|]; simpl in H; [|done].
  all: destruct (Py.split text header) as [pieces|] eqn:Hs; simpl in H; [|done].
  all: destruct (Py.index pieces (-1)) as [after|] eqn:Ha; simpl in H; [|done].
  all: destruct (Py.split after next) as [parts|] eqn:Hp; simpl in H; [|done].
  all: apply index_last_Ok in Ha; apply index_first_Ok in H.
  all: pose proof (split_first_prefix _ _ _ _ Hp H) as Hpre.
  all: eapply substring_trans; [by apply substring_prefix|].
  all: destruct (split_last_cases _ _ _ _ Hs Ha) as [[_ ->] | Hsuf];
         [by exists [], [] ; rewrite app_nil_r |].
  all: apply substring_suffix; by eapply suffix_app_l.
Qed.

Lemma keyword_search_shape text keywords_pattern r :
  _extract_mda_via_keyword_search E text keywords_pattern = Ok r ->
  substring r text
  \/ exists h, keyword_header_literal E text keywords_pattern h
       /\ Py.find h text = None /\ r `prefix_of` h ++ text.
Proof.
  unfold _extract_mda_via_keyword_search. intros H.
  destruct (numbers_found E _ text) as [nums|]; simpl in H; [|done].
  destruct nums as [|n ns]; [injection H as <-; left; apply substring_nil|].
  destruct (Py.index _ 0) as [top|]; simpl in H; [|done].
  destruct (mda_header_full_match E _ text) as [header|] eqn:Hh; simpl in H; [|done].
  destruct (next_section_header top.1 header) as [next|]; simpl in H; [|done].
  destruct (Py.split text header) as [pieces|] eqn:Hs; simpl in H; [|done].
  destruct (Py.index pieces (-1)) as [after|] eqn:Ha; simpl in H; [|done].
  destruct (Py.split after next) as [parts|] eqn:Hp; simpl in H; [|done].
  destruct (Py.index parts 0) as [content|] eqn:Hc; simpl in H; [|done].
  injection H as <-.
  apply index_last_Ok in Ha; apply index_first_Ok in Hc.
  pose proof (split_first_prefix _ _ _ _ Hp Hc) as Hpre.
  destruct (split_last_cases _ _ _ _ Hs Ha) as [[Hnone ->] | Hsuf].
  - right. exists header. split_and!; [done|done|]. by apply prefix_app.
  - left. eapply substring_trans; [|by apply substring_suffix].
    apply substring_prefix. by apply prefix_app.
Qed.

(** C5, amended: the result of [extract_mda] is a contiguous substring of
    the text (the empty string is one); or the TOC-based extractor returned
    it, the header literal that it rebuilt (the marker and the title of the
    MD&A entry of the TOC, joined and cleaned) does not occur in the text
    after the TOC range, and the result is a prefix of that literal followed
    by that text; or the TOC-based extractor raised, the header that the
    keyword search found (its last match, the newlines removed) does not
    occur in the text, and the result is a prefix of that header followed by
    the text.  So the result is a substring of the text whenever the header
    literal of the extractor that gave it occurs in the text that it
    splits. *)
Theorem extract_mda_result_shape (text keywords_pattern r : list N) :
  extract_mda E text keywords_pattern = Ok r ->
  (substring r text
   \/ (exists h body,
         toc_header_literal E text keywords_pattern h body
         /\ body `suffix_of` text
         /\ _extract_mda_via_toc E text keywords_pattern = Ok r
         /\ Py.find h body = None
         /\ r `prefix_of` h ++ body)
   \/ (exists h,
         keyword_header_literal E text keywords_pattern h
         /\ raises (_extract_mda_via_toc E text keywords_pattern)
         /\ _extract_mda_via_keyword_search E text keywords_pattern = Ok r
         /\ Py.find h text = None
         /\ r `prefix_of` h ++ text))
  /\ (forall h body,
        toc_header_literal E text keywords_pattern h body ->
        _extract_mda_via_toc E text keywords_pattern = Ok r ->
        is_Some (Py.find h body) ->
        substring r text)
  /\ (forall h,
        keyword_header_literal E text keywords_pattern h ->
        raises (_extract_mda_via_toc E text keywords_pattern) ->
        is_Some (Py.find h text) ->
        substring r text).
Proof.
  unfold extract_mda, try_except, try_catch. intros H.
  destruct (_extract_mda_via_toc E text keywords_pattern) as [r0|e0] eqn:Htoc.
  - injection H as <-.
    pose proof (toc_result_shape _ _ _ Htoc) as Hshape. split_and!.
    + destruct Hshape as [Hs | (h & body & Hh & Hn & Hp)]; [by left|].
      right. left. exists h, body. split_and!; try done.
      by eapply toc_header_literal_suffix.
    + intros h body Hh _ Hfound.
      destruct Hshape as [Hs | (h' & body' & Hh' & Hn & _)]; [done|].
      destruct (toc_header_literal_unique _ _ _ _ _ _ Hh Hh') as [-> ->].
      rewrite Hn in Hfound. by destruct Hfound.
    + intros h _ [e He] _. discriminate He.
  - simpl in H.
    destruct (_extract_mda_via_keyword_search E text keywords_pattern)
      as [r1|e1] eqn:Hk.
    + injection H as <-.
      pose proof (keyword_search_shape _ _ _ Hk) as Hshape. split_and!.
      * destruct Hshape as [Hs | (h & Hh & Hn & Hp)]; [by left|].
        right. right. exists h. split_and!; try done. by exists e0.
      * intros h body _ Hr. discriminate Hr.
      * intros h Hh _ Hfound.
        destruct Hshape as [Hs | (h' & Hh' & Hn & _)]; [done|].
        unfold keyword_header_literal in Hh, Hh'. rewrite Hh in Hh'.
        injection Hh' as <-. rewrite Hn in Hfound. by destruct Hfound.
    + simpl in H. injection H as <-. split_and!.
      * left. apply substring_nil.
      * intros. apply substring_nil.
      * intros. apply substring_nil.
Qed.

End Shape.

Lemma substring_occurs r s : substring r s -> exists i, occurs_at r s i.
Proof.
  intros (pre & post & ->). exists (length pre). unfold occurs_at.
  rewrite drop_app_length. by exists post.
Qed.

(** C5 as stated fails: on a short document whose TOC title holds a year the
    result is the header rebuilt without the digits, which is neither empty
    nor a substring of the text. *)
Lemma extract_mda_result_not_substring :
  ~ (forall text keywords_pattern r,
       extract_mda py_re text keywords_pattern = Ok r ->
       r = [] \/ substring r text).
Proof.
  intros H.
  destruct (H short_toc_doc [] (u "第一节年度管理层讨论与分析")) as [Hnil | Hsub].
  - vm_compute. reflexivity.
  - vm_compute in Hnil. discriminate.
  - apply substring_occurs in Hsub as [i Hi]. apply find_is_Some in Hi.
    vm_compute in Hi. by destruct Hi.
Qed.

Lemma extract_mda_result_shape_witness :
  (substring (u "第一节年度管理层讨论与分析") short_toc_doc
   \/ (exists h body,
         toc_header_literal py_re short_toc_doc [] h body
         /\ body `suffix_of` short_toc_doc
         /\ _extract_mda_via_toc py_re short_toc_doc []
            = Ok (u "第一节年度管理层讨论与分析")
         /\ Py.find h body = None
         /\ u "第一节年度管理层讨论与分析" `prefix_of` h ++ body)
   \/ (exists h,
         keyword_header_literal py_re short_toc_doc [] h
         /\ raises (_extract_mda_via_toc py_re short_toc_doc [])
         /\ _extract_mda_via_keyword_search py_re short_toc_doc []
            = Ok (u "第一节年度管理层讨论与分析")
         /\ Py.find h short_toc_doc = None
         /\ u "第一节年度管理层讨论与分析" `prefix_of` h ++ short_toc_doc))
  /\ (forall h body,
        toc_header_literal py_re short_toc_doc [] h body ->
        _extract_mda_via_toc py_re short_toc_doc []
        = Ok (u "第一节年度管理层讨论与分析") ->
        is_Some (Py.find h body) ->
        substring (u "第一节年度管理层讨论与分析") short_toc_doc)
  /\ (forall h,
        keyword_header_literal py_re short_toc_doc [] h ->
        raises (_extract_mda_via_toc py_re short_toc_doc []) ->
        is_Some (Py.find h short_toc_doc) ->
        substring (u "第一节年度管理层讨论与分析") short_toc_doc).
Proof.
  apply (extract_mda_result_shape py_re short_toc_doc [] (u "第一节年度管理层讨论与分析")).
  vm_compute. reflexivity.
Defined.

(** * Further properties of the code *)

Module ScanFacts.
Import Re.

Lemma match_rep_bound k a lo hi s n r :
  (forall s' n' r', k s' n' = Some r' -> (n' <= r' <= n' + length s')%nat) ->
  match_rep k a lo hi s n = Some r -> (n <= r <= n + length s)%nat.
Proof.
  intros Hk. revert lo hi n. induction s as [|c s IH]; intros lo hi n; simpl.
  - destruct lo; [|done]. intros H. apply Hk in H. simpl in H. lia.
  - assert (Hstop : match lo with O => k (c :: s) n | S _ => None end = Some r ->
                    (n <= r <= n + S (length s))%nat).
    { destruct lo; [|done]. intros H. apply Hk in H. simpl in H. lia. }
    destruct (atom_matches a c && may_take hi); [|exact Hstop].
    destruct (match_rep k a (pred lo) (pred <$> hi) s (S n)) as [r'|] eqn:E;
      [|exact Hstop].
    intros [= ->]. apply IH in E. lia.
Qed.

Lemma match_branch_bound adv ps s n r :
  match_branch adv ps s n = Some r -> (n <= r <= n + length s)%nat.
Proof.
  revert s n r. induction ps as [|p ps IH]; intros s n r; simpl.
  - unfold accept. case_match; [done|]. intros [= <-]. lia.
  - apply match_rep_bound. intros s' n' r'. apply IH.
Qed.

Lemma match_at_bound adv r s l : match_at adv r s = Some l -> (l <= length s)%nat.
Proof.
  induction r as [|b r IH]; simpl; [done|].
  destruct (match_branch adv b s 0) as [n|] eqn:E; [|exact IH].
  intros [= <-]. apply match_branch_bound in E. lia.
Qed.

(** Every span of a scan is a match of the pattern at its offset. *)
Lemma scan_spans r s pos k sp :
  never_empty r -> sp ∈ scan r s pos k ->
  exists j l, sp = ((pos + j)%nat, (pos + j + l)%nat) /\ (k <= j)%nat
    /\ match_at false r (drop j s) = Some l /\ (j + l <= length s)%nat.
Proof.
  intros Hne. revert pos k. induction s as [|c s IH]; intros pos k Hin.
  - destruct k as [|k]; simpl in Hin; [|by apply elem_of_nil in Hin].
    destruct (match_at false r []) as [[|l]|] eqn:E.
    + by apply Hne in E.
    + apply match_at_bound in E. simpl in E. lia.
    + by apply elem_of_nil in Hin.
  - assert (Hnext : forall k', sp ∈ scan r s (S pos) k' ->
      exists j l, sp = ((pos + j)%nat, (pos + j + l)%nat) /\ (S k' <= j)%nat
        /\ match_at false r (drop j (c :: s)) = Some l
        /\ (j + l <= length (c :: s))%nat).
    { intros k' H. apply IH in H as (j & l & -> & Hk & Hm & Hb).
      exists (S j), l. simpl. split_and!; [f_equal; lia | lia | done | lia]. }
    destruct k as [|k]; simpl in Hin.
    + destruct (match_at false r (c :: s)) as [[|l]|] eqn:E.
      * by apply Hne in E.
      * apply elem_of_cons in Hin as [-> | Hin].
        -- exists 0%nat, (S l). rewrite Nat.add_0_r. split_and!; [done|lia|done|].
           apply match_at_bound in E. simpl in *. lia.
        -- apply Hnext in Hin as (j & l' & ? & ? & ? & ?).
           exists j, l'. split_and!; [done|lia|done|done].
      * apply Hnext in Hin as (j & l' & ? & ? & ? & ?).
        exists j, l'. split_and!; [done|lia|done|done].
    + apply Hnext in Hin as (j & l' & ? & ? & ? & ?).
      exists j, l'. split_and!; [done|lia|done|done].
Qed.

(** A greedy star before the end of the pattern takes the longest run. *)
Lemma match_rep_star_accept a s n :
  match_rep (accept false) a 0 None s n = Some (n + run_length a s)%nat.
Proof.
  revert n. induction s as [|c s IH]; intros n; simpl.
  - unfold accept. simpl. f_equal. lia.
  - destruct (atom_matches a c); simpl.
    + rewrite IH. f_equal. lia.
    + unfold accept. simpl. f_equal. lia.
Qed.

Lemma match_plus a s :
  match_at false [[plus a]] s
  = match s with
    | c :: s' => if atom_matches a c then Some (S (run_length a s')) else None
    | [] => None
    end.
Proof.
  unfold plus. cbn [match_at match_branch p_atom p_min p_max].
  destruct s as [|c s]; simpl; [done|].
  destruct (atom_matches a c); simpl; [|done].
  change (match_branch false []) with (accept false).
  rewrite match_rep_star_accept. done.
Qed.

Lemma run_length_bound a s : (run_length a s <= length s)%nat.
Proof. induction s; simpl; [lia|]. case_match; simpl; lia. Qed.

Lemma run_length_Forall a s :
  Forall (fun c => atom_matches a c = true) (take (run_length a s) s).
Proof.
  induction s as [|c s IH]; simpl; [constructor|].
  destruct (atom_matches a c) eqn:E; simpl; [by constructor | constructor].
Qed.

End ScanFacts.
Import ScanFacts.

Module SubstFacts.
Import Re.

Lemma filter_all_deleted (P : N -> bool) (l : list N) :
  Forall (fun d => P d = true) l -> filter (fun c => P c = false) l = [].
Proof.
  induction 1 as [|d l Hd _ IH]; [done|].
  rewrite filter_cons_False by congruence. exact IH.
Qed.

Lemma scan_deletes P r s :
  deletes P r ->
  (forall pre mid,
     concat (between (pre ++ mid ++ s) (length pre)
               (scan r s (length pre + length mid) 0))
     = mid ++ filter (fun c => P c = false) s)
  /\ (forall pre k, (k <= length s)%nat ->
        Forall (fun d => P d = true) (take k s) ->
        concat (between (pre ++ s) (length pre + k) (scan r s (length pre) k))
        = filter (fun c => P c = false) (drop k s)).
Proof.
  intros Hdel. induction s as [|c s [IHA IHB]].
  - assert (HA : forall pre mid,
      concat (between (pre ++ mid ++ []) (length pre)
                (scan r [] (length pre + length mid) 0)) = mid ++ []).
    { intros pre mid. simpl. rewrite (Hdel []). simpl.
      rewrite drop_app_length. by rewrite !app_nil_r. }
    split; [exact HA|]. intros pre k Hk _. simpl in Hk.
    assert (k = 0)%nat as -> by lia.
    specialize (HA pre []). simpl in HA. rewrite !Nat.add_0_r in *.
    rewrite app_nil_r in *. exact HA.
  - assert (HA : forall pre mid,
      concat (between (pre ++ mid ++ c :: s) (length pre)
                (scan r (c :: s) (length pre + length mid) 0))
      = mid ++ filter (fun c => P c = false) (c :: s)).
    { intros pre mid. pose proof (Hdel (c :: s)) as Hc. simpl in Hc.
      cbn [scan]. destruct (P c) eqn:Pc.
      - destruct Hc as (l & -> & Hl & Hall).
        cbn [between concat]. 
        replace (length pre + length mid - length pre)%nat with (length mid) by lia.
        rewrite drop_app_length, take_app_length.
        rewrite filter_cons_False by congruence. f_equal.
        specialize (IHB (pre ++ mid ++ [c]) l Hl Hall).
        rewrite <- !app_assoc in IHB. simpl in IHB.
        rewrite !length_app in IHB. simpl in IHB.
        replace (length pre + length mid + S l)%nat
          with (length pre + (length mid + 1) + l)%nat by lia.
        replace (S (length pre + length mid))
          with (length pre + (length mid + 1))%nat by lia.
        change (Init.Nat.pred (S l)) with l. rewrite IHB.
        transitivity (filter (fun c => P c = false) (take l s ++ drop l s));
          [| by rewrite take_drop].
        rewrite filter_app, (filter_all_deleted P (take l s) Hall). done.
      - rewrite Hc. change (Init.Nat.pred 1) with 0%nat.
        specialize (IHA pre (mid ++ [c])).
        rewrite <- !app_assoc in IHA. simpl in IHA.
        rewrite length_app in IHA. simpl in IHA.
        replace (S (length pre + length mid))
          with (length pre + (length mid + 1))%nat by lia.
        rewrite IHA. rewrite filter_cons_True by done. done. }
    split; [exact HA|]. intros pre [|k] Hk Hall.
    + specialize (HA pre []). simpl in HA. rewrite !Nat.add_0_r in *. exact HA.
    + cbn [scan drop]. change (Init.Nat.pred (S k)) with k. simpl in Hk.
      apply Forall_cons in Hall as [_ Hall].
      specialize (IHB (pre ++ [c]) k ltac:(lia) Hall).
      rewrite <- !app_assoc in IHB. simpl in IHB.
      rewrite length_app in IHB. simpl in IHB.
      replace (length pre + S k)%nat with (length pre + 1 + k)%nat by lia.
      replace (S (length pre)) with (length pre + 1)%nat by lia.
      exact IHB.
Qed.

(** [re.sub(r, '', s)] for a pattern that deletes the characters of [P]. *)
Lemma sub_empty_filter P r s :
  deletes P r -> sub_empty r s = filter (fun c => P c = false) s.
Proof.
  intros Hdel. unfold sub_empty, split, spans.
  exact (proj1 (scan_deletes P r s Hdel) [] []).
Qed.

End SubstFacts.
Import SubstFacts.

Module CleanFacts.
Import Re.

Lemma deletes_plus a : deletes (atom_matches a) [[plus a]].
Proof.
  intros [|c s]; rewrite match_plus; [done|].
  destruct (atom_matches a c); [|done].
  exists (run_length a s). split_and!; [done | apply run_length_bound |].
  apply run_length_Forall.
Qed.

Lemma cjk_atom c : atom_matches (ASet false [CRange 0x4e00 0x9fa5]) c = is_cjk c.
Proof. simpl. by rewrite orb_false_r. Qed.

Lemma deletes_cjk_run : deletes is_cjk Pat.cjk_run.
Proof.
  intros s. pose proof (deletes_plus (ASet false [CRange 0x4e00 0x9fa5]) s) as H.
  unfold Pat.cjk_run. destruct s as [|c s]; [done|].
  rewrite cjk_atom in H. destruct (is_cjk c); [|done].
  destruct H as (l & Hm & Hl & Hall). exists l. split_and!; [done|done|].
  eapply Forall_impl; [exact Hall|]. intros d Hd. cbv beta in Hd.
  by rewrite cjk_atom in Hd.
Qed.

Lemma digit_atom c : atom_matches (ASet false [CDigit]) c = Uni.is_digit c.
Proof. simpl. by rewrite orb_false_r. Qed.

Lemma deletes_digits_or_dot : deletes is_digit_or_dot Pat.digits_or_dot.
Proof.
  intros [|c s]; [done|].
  unfold Pat.digits_or_dot, is_digit_or_dot.
  pose proof (match_plus (ASet false [CDigit]) (c :: s)) as Hp.
  cbn [match_at] in Hp |- *. rewrite digit_atom in Hp.
  destruct (match_branch false [plus (ASet false [CDigit])] (c :: s) 0)
    as [n|] eqn:Hb.
  - destruct (Uni.is_digit c) eqn:Hd; [|done]. simpl.
    injection Hp as ->. exists (run_length (ASet false [CDigit]) s).
    split_and!; [done | apply run_length_bound |].
    eapply Forall_impl; [apply run_length_Forall|].
    intros d Hd'. cbv beta in Hd'. rewrite digit_atom in Hd'. by rewrite Hd'.
  - destruct (Uni.is_digit c) eqn:Hd; [done|]. cbn [orb].
    cbn [match_branch one p_atom p_min p_max]. rewrite ReFacts.match_rep_one.
    cbn [atom_matches]. destruct (c =? ch ".")%N; [|done].
    exists 0%nat. split_and!; [done | lia | constructor].
Qed.

Lemma lstrip_suffix s : Py_str.lstrip s `suffix_of` s.
Proof.
  induction s as [|c s IH]; simpl; [done|].
  destruct (Uni.is_space c); [by apply suffix_cons_r | done].
Qed.

Lemma lstrip_head s c : head (Py_str.lstrip s) = Some c -> Uni.is_space c = false.
Proof.
  induction s as [|d s IH]; simpl; [done|].
  destruct (Uni.is_space d) eqn:E; [exact IH|]. simpl. by intros [= <-].
Qed.

Lemma lstrip_keeps s c :
  Uni.is_space c = false -> Py_str.lstrip (s ++ [c]) <> [].
Proof.
  intros Hc. induction s as [|d s IH]; simpl; [by rewrite Hc|].
  by destruct (Uni.is_space d).
Qed.

Lemma rstrip_prefix s : Py_str.rstrip s `prefix_of` s.
Proof.
  unfold Py_str.rstrip. destruct (lstrip_suffix (reverse s)) as [k Hk].
  exists (reverse k). apply (f_equal reverse) in Hk.
  rewrite reverse_involutive, reverse_app in Hk. exact Hk.
Qed.

Lemma rstrip_last s c : last (Py_str.rstrip s) = Some c -> Uni.is_space c = false.
Proof.
  unfold Py_str.rstrip. rewrite last_reverse. apply lstrip_head.
Qed.

Lemma rstrip_nonempty c s : Uni.is_space c = false -> Py_str.rstrip (c :: s) <> [].
Proof.
  intros Hc. unfold Py_str.rstrip. rewrite reverse_cons.
  intros H. apply (f_equal reverse) in H. rewrite reverse_involutive in H.
  by apply (lstrip_keeps (reverse s) c Hc).
Qed.

Lemma strip_cleaned s :
  (forall c, head (Py_str.strip s) = Some c -> Uni.is_space c = false)
  /\ (forall c, last (Py_str.strip s) = Some c -> Uni.is_space c = false)
  /\ substring (Py_str.strip s) s.
Proof.
  unfold Py_str.strip. split_and!.
  - intros c Hc. destruct (rstrip_prefix (Py_str.lstrip s)) as [k Hk].
    apply (lstrip_head s). rewrite Hk.
    destruct (Py_str.rstrip (Py_str.lstrip s)); [done | exact Hc].
  - apply rstrip_last.
  - eapply substring_trans; [apply substring_prefix, rstrip_prefix|].
    apply substring_suffix, lstrip_suffix.
Qed.

Lemma substring_Forall (P : N -> Prop) r s : substring r s -> Forall P s -> Forall P r.
Proof.
  intros (pre & post & ->) H. apply Forall_app in H as [_ H].
  by apply Forall_app in H as [H _].
Qed.

(** What [re.sub(r'\d+|\.', '', title).strip()] returns is cleaned. *)
Lemma strip_sub_cleaned s :
  cleaned_title (Py_str.strip (Re.sub_empty Pat.digits_or_dot s)).
Proof.
  destruct (strip_cleaned (Re.sub_empty Pat.digits_or_dot s)) as (Hh & Hl & Hsub).
  split_and!; [|exact Hh|exact Hl].
  eapply substring_Forall; [exact Hsub|].
  rewrite (sub_empty_filter _ _ _ deletes_digits_or_dot).
  apply Forall_forall. intros c Hc. by apply list_elem_of_filter in Hc as [Hc _].
Qed.

Lemma title_cleaned toc_text title :
  title ∈ toc_section_titles toc_text -> cleaned_title title.
Proof.
  unfold toc_section_titles. intros (t & -> & _)%list_elem_of_fmap.
  apply strip_sub_cleaned.
Qed.

End CleanFacts.
Import CleanFacts.

(** X1: every title read from a TOC text is cleaned: it holds no decimal digit
    and no dot, and neither starts nor ends with whitespace. *)
Theorem toc_titles_are_cleaned (toc_text : list N) :
  Forall cleaned_title (toc_section_titles toc_text).
Proof.
  unfold toc_section_titles. apply Forall_map, Forall_forall. intros t _.
  apply strip_sub_cleaned.
Qed.

Module MarkerFacts.
Import Re.

Lemma set_atom_elem (l : list N) c :
  atom_matches (ASet false (map CChar l)) c = true <-> c ∈ l.
Proof.
  simpl. induction l as [|d l IH]; simpl.
  - split; [done | by intros ?%elem_of_nil].
  - rewrite orb_true_iff, IH, N.eqb_eq, elem_of_cons. done.
Qed.

Lemma section_marker_match s l :
  match_at false Pat.section_marker s = Some l ->
  exists n k rest, s = [NL; ch "第"; n; k] ++ rest /\ l = 4%nat
    /\ n ∈ u "一二三四五六七八九十" /\ k ∈ u "节|章".
Proof.
  unfold Pat.section_marker, Pat.numerals.
  cbn [match_at match_branch one p_atom p_min p_max].
  rewrite !ReFacts.match_rep_one.
  destruct s as [|c0 s]; [done|]. cbn [atom_matches].
  destruct (N.eqb_spec c0 NL) as [->|]; [|done].
  rewrite ReFacts.match_rep_one.
  destruct s as [|c1 s]; [done|]. cbn [atom_matches].
  destruct (N.eqb_spec c1 (ch "第")) as [->|]; [|done].
  rewrite ReFacts.match_rep_one.
  destruct s as [|n s]; [done|].
  destruct (atom_matches (ASet false (map CChar (u "一二三四五六七八九十"))) n) eqn:Hn;
    [|done].
  rewrite ReFacts.match_rep_one.
  destruct s as [|k s]; [done|].
  destruct (atom_matches (ASet false (map CChar (u "节|章"))) k) eqn:Hk; [|done].
  unfold accept. simpl. intros [= <-].
  exists n, k, s. split_and!; [done | done | |].
  - by apply set_atom_elem.
  - by apply set_atom_elem.
Qed.

Lemma section_marker_never_empty : never_empty Pat.section_marker.
Proof.
  intros s H. apply section_marker_match in H as (?&?&?&?&?&?). lia.
Qed.

Lemma markers_are_section_markers toc_text :
  Forall is_section_marker (toc_section_markers toc_text).
Proof.
  unfold toc_section_markers, Re.findall, Re.spans.
  apply Forall_map, Forall_forall. intros sp Hsp. simpl.
  apply (scan_spans _ _ _ _ _ section_marker_never_empty) in Hsp
    as (j & l & -> & _ & Hm & _).
  apply section_marker_match in Hm as (n & k & rest & Hd & -> & Hn & Hk).
  unfold Re.substr. simpl.
  replace (j + 4 - j)%nat with 4%nat by lia. rewrite Hd.
  exists n, k. split_and!; [reflexivity | exact Hn | exact Hk].
Qed.

End MarkerFacts.
Import MarkerFacts.

(** X2: the markers read from a TOC text are as many as the titles, and each is a
    newline, 第, a numeral and 节, | or 章. *)
Theorem toc_markers_shape (toc_text : list N) :
  length (toc_section_markers toc_text) = length (toc_section_titles toc_text)
  /\ Forall is_section_marker (toc_section_markers toc_text).
Proof.
  split; [symmetry; apply titles_markers_length|].
  apply markers_are_section_markers.
Qed.





(** The header separator is the header without its characters in the range
    一 to 龥. *)
Lemma header_separator_filter header :
  Re.sub_empty Pat.cjk_run header = filter (fun c => is_cjk c = false) header.
Proof. apply sub_empty_filter, deletes_cjk_run. Qed.

Lemma number_maps_lookup num n :
  dict_get (_get_chinese_number_maps.1) num = Ok n ->
  exists succ, numeral_successor num = Some succ
    /\ dict_get (_get_chinese_number_maps.2) (n + 1) = Ok succ.
Proof.
  unfold dict_get. destruct (_ !! num) as [n'|] eqn:Hl; [|done].
  intros [= ->]. unfold _get_chinese_number_maps in Hl. cbn [fst] in Hl.
  apply elem_of_list_to_map_2 in Hl.
  repeat (apply elem_of_cons in Hl as [[= -> ->] | Hl];
          [eexists; split; vm_compute; reflexivity|]).
  by apply elem_of_nil in Hl.
Qed.

Lemma number_maps_miss num :
  dict_get (_get_chinese_number_maps.1) num = Raise KeyError \/
  exists n, dict_get (_get_chinese_number_maps.1) num = Ok n.
Proof. unfold dict_get. destruct (_ !! num); eauto. Qed.

Lemma numeral_successor_key num succ :
  numeral_successor num = Some succ ->
  exists n, dict_get (_get_chinese_number_maps.1) num = Ok n.
Proof.
  unfold numeral_successor. destruct num as [|c [|]]; [done| |done].
  repeat match goal with
         | |- context [(c =? ?k)%N] =>
             destruct (N.eqb_spec c k) as [->|];
             [intros _; eexists; vm_compute; reflexivity|]
         end.
  done.
Qed.

Lemma next_header_some num succ header :
  numeral_successor num = Some succ ->
  next_section_header num header
  = Ok ([NL] ++ succ ++ filter (fun c => is_cjk c = false) header).
Proof.
  intros Hs. unfold next_section_header.
  change (let '(char_to_int_map, int_to_char_map) := _get_chinese_number_maps in
     n ← dict_get char_to_int_map num;
     next ← dict_get int_to_char_map (n + 1);
     Ok ([NL] ++ next ++ Re.sub_empty Pat.cjk_run header))
    with (n ← dict_get (_get_chinese_number_maps.1) num;
          next ← dict_get (_get_chinese_number_maps.2) (n + 1);
          Ok ([NL] ++ next ++ Re.sub_empty Pat.cjk_run header)).
  rewrite header_separator_filter.
  destruct (numeral_successor_key _ _ Hs) as [n Hn].
  rewrite Hn. cbn [mbind result_bind].
  destruct (number_maps_lookup _ _ Hn) as (succ' & Hs' & ->).
  rewrite Hs in Hs'. by injection Hs' as <-.
Qed.

Lemma next_header_none num header :
  numeral_successor num = None ->
  next_section_header num header = Raise KeyError.
Proof.
  intros Hs. unfold next_section_header.
  change (let '(char_to_int_map, int_to_char_map) := _get_chinese_number_maps in
     n ← dict_get char_to_int_map num;
     next ← dict_get int_to_char_map (n + 1);
     Ok ([NL] ++ next ++ Re.sub_empty Pat.cjk_run header))
    with (n ← dict_get (_get_chinese_number_maps.1) num;
          next ← dict_get (_get_chinese_number_maps.2) (n + 1);
          Ok ([NL] ++ next ++ Re.sub_empty Pat.cjk_run header)).
  destruct (number_maps_miss num) as [Hmiss | [n Hn]].
  - by rewrite Hmiss.
  - destruct (number_maps_lookup _ _ Hn) as (succ & Hs' & _). congruence.
Qed.

(** X4: the next-section header: a newline, the successor of the numeral and the
    separator (the header without its characters from 一 to 龥) when the
    numeral is one of 一 to 十; KeyError for any other string.  The second
    lookup never misses. *)
Theorem next_section_header_spec (num header : list N) :
  next_section_header num header
  = match numeral_successor num with
    | Some succ => Ok ([NL] ++ succ ++ filter (fun c => is_cjk c = false) header)
    | None => Raise KeyError
    end.
Proof.
  destruct (numeral_successor num) as [succ|] eqn:Hs.
  - by apply next_header_some.
  - by apply next_header_none.
Qed.

Module TocFacts.

Lemma scan_starts_ge r s pos k sp : sp ∈ Re.scan r s pos k -> (pos <= sp.1)%nat.
Proof.
  revert pos k. induction s as [|c s IH]; intros pos k Hin.
  - destruct k as [|k]; simpl in Hin; [|by apply elem_of_nil in Hin].
    destruct (Re.match_at false r []) as [[|l]|].
    + apply elem_of_cons in Hin as [-> | Hin]; [simpl; lia|].
      destruct (Re.match_at true r []);
        [apply elem_of_cons in Hin as [-> | Hin]; [simpl; lia|] |];
        by apply elem_of_nil in Hin.
    + apply elem_of_cons in Hin as [-> | Hin]; [simpl; lia|].
      by apply elem_of_nil in Hin.
    + by apply elem_of_nil in Hin.
  - assert (Hnext : forall k', sp ∈ Re.scan r s (S pos) k' -> (pos <= sp.1)%nat).
    { intros k' H. apply IH in H. lia. }
    destruct k as [|k]; simpl in Hin; [|by eapply Hnext].
    destruct (Re.match_at false r (c :: s)) as [[|l]|].
    + apply elem_of_cons in Hin as [-> | Hin]; [simpl; lia|].
      destruct (Re.match_at true r (c :: s)).
      * apply elem_of_cons in Hin as [-> | Hin]; [simpl; lia | by eapply Hnext].
      * by eapply Hnext.
    + apply elem_of_cons in Hin as [-> | Hin]; [simpl; lia | by eapply Hnext].
    + by eapply Hnext.
Qed.

(** A substitution keeps the first character when the pattern does not match
    there. *)
Lemma sub_empty_head r c s :
  Re.match_at false r (c :: s) = None ->
  exists t, Re.sub_empty r (c :: s) = c :: t.
Proof.
  intros Hm. unfold Re.sub_empty, Re.split, Re.spans. cbn [Re.scan]. rewrite Hm.
  change (Init.Nat.pred 1) with 0%nat.
  pose proof (fun sp => scan_starts_ge r s 1 0 sp) as Hge.
  destruct (Re.scan r s 1 0) as [|[a b] sps]; simpl.
  - eauto.
  - specialize (Hge (a, b) ltac:(apply list_elem_of_here)). simpl in Hge.
    destruct a as [|a]; [lia|]. simpl. eauto.
Qed.

Lemma marker_without_newline m :
  is_section_marker m -> exists t, Py.remove_char NL m = ch "第" :: t.
Proof.
  intros (n & k & -> & _ & _). unfold Py.remove_char.
  rewrite filter_cons_False by (intros H; by apply H).
  rewrite filter_cons_True by (vm_compute; discriminate). eauto.
Qed.

Lemma title_mask_nonempty m title :
  is_section_marker m -> title_mask (Py.remove_char NL m ++ title) <> [].
Proof.
  intros [t ->]%marker_without_newline. unfold title_mask. simpl.
  destruct (sub_empty_head Pat.digits_or_leader (ch "第") (t ++ title)) as [x ->].
  - vm_compute. reflexivity.
  - apply rstrip_nonempty. vm_compute. reflexivity.
Qed.

Lemma index_in_range {A} (l : list A) i :
  0 <= i < Z.of_nat (length l) -> exists x, Py.index l i = Ok x.
Proof.
  intros Hi. unfold Py.index.
  destruct (i <? 0) eqn:E1; [lia|]. rewrite E1.
  destruct (Z.of_nat (length l) <=? i) eqn:E2; [lia|]. simpl.
  destruct (l !! Z.to_nat i) eqn:El; [eauto|].
  apply lookup_ge_None in El. lia.
Qed.

Lemma true_indices_range flags k x :
  x ∈ true_indices flags k -> k <= x < k + Z.of_nat (length flags).
Proof.
  revert k. induction flags as [|b flags IH]; intros k; simpl.
  - by intros ?%elem_of_nil.
  - intros [Hx | Hx]%elem_of_app.
    + destruct b; [|by apply elem_of_nil in Hx].
      apply list_elem_of_singleton in Hx. lia.
    + apply IH in Hx. lia.
Qed.

Lemma traverse_length {A B} (f : A -> result B) l l' :
  traverse f l = Ok l' -> length l' = length l.
Proof.
  revert l'. induction l as [|x l IH]; intros l'; simpl.
  - by intros [= <-].
  - destruct (f x); simpl; [|done]. destruct (traverse f l); simpl; [|done].
    intros [= <-]. simpl. f_equal. by apply IH.
Qed.

Lemma mda_toc_index_range E pat titles i :
  mda_toc_index E pat titles = Ok i -> 0 <= i < Z.of_nat (length titles).
Proof.
  unfold mda_toc_index.
  destruct (traverse _ titles) as [flags|] eqn:Ht; simpl; [|done].
  intros Hi%index_elem%true_indices_range.
  apply traverse_length in Ht. lia.
Qed.

Lemma split_nonempty_sep s sep :
  sep <> [] -> Py.split s sep = Ok (Py.split_pieces (length s) sep s).
Proof. unfold Py.split. by destruct sep. Qed.

Lemma literal_split_returns body mask next :
  mask <> [] -> next <> [] -> exists r, toc_literal_split body mask next = Ok r.
Proof.
  intros Hm Hn. unfold toc_literal_split.
  rewrite (split_nonempty_sep body mask Hm). cbn [mbind result_bind].
  rewrite index_last.
  destruct (split_last (length body) mask body) as (after & -> & _).
  cbn [mbind result_bind].
  rewrite (split_nonempty_sep (mask ++ after) next Hn). cbn [mbind result_bind].
  rewrite index_first.
  pose proof (split_first (length (mask ++ after)) next (mask ++ after) Hn
                ltac:(lia)) as Hf.
  destruct (Py.split_pieces _ _ _); [done | eauto].
Qed.

End TocFacts.
Import TocFacts.

Section TocReturns.
Variable E : RegexEngine.

(** X5: once the MD&A entry of the TOC is found and is not the last one, the
    TOC-based extractor returns a string. *)
Theorem toc_returns_with_next_entry (text keywords_pattern toc_text : list N)
    (i : Z) :
  is_toc_text text toc_text ->
  mda_toc_index E (_get_mda_keywords_pattern keywords_pattern)
    (toc_section_titles toc_text) = Ok i ->
  i + 1 < Z.of_nat (length (toc_section_titles toc_text)) ->
  exists r, _extract_mda_via_toc E text keywords_pattern = Ok r.
Proof.
  intros (s & e & Hrange & ->) Hi Hnext.
  pose proof (mda_toc_index_range _ _ _ _ Hi) as Hir.
  pose proof (titles_markers_length (Py.slice text s e)) as Hlen.
  pose proof (markers_are_section_markers (Py.slice text s e)) as Hshape.
  unfold _extract_mda_via_toc. rewrite Hrange. simpl.
  destruct (toc_section_titles (Py.slice text s e)) as [|t ts] eqn:Et;
    [simpl in Hir; lia|].
  destruct (toc_section_markers (Py.slice text s e)) as [|m ms] eqn:Em;
    [simpl in Hlen; lia|].
  rewrite Hi. simpl.
  destruct (index_in_range (m :: ms) i ltac:(lia)) as [mk Hmk].
  destruct (index_in_range (t :: ts) i ltac:(lia)) as [tt Htt].
  destruct (index_in_range (m :: ms) (i + 1) ltac:(lia)) as [nm Hnm].
  destruct (index_in_range (t :: ts) (i + 1) ltac:(lia)) as [nt Hnt].
  rewrite Hmk, Htt, Hnm, Hnt. simpl.
  assert (Hmask : forall x tl, x ∈ m :: ms ->
            title_mask (Py.remove_char NL x ++ tl) <> []).
  { intros x tl Hx. apply title_mask_nonempty.
    by apply (proj1 (Forall_forall _ _) Hshape). }
  destruct (literal_split_returns (Py.slice_from text e)
              (title_mask (Py.remove_char NL mk ++ tt))
              (title_mask (Py.remove_char NL nm ++ nt)))
    as [r Hr].
  - apply Hmask. by apply index_elem in Hmk.
  - apply Hmask. by apply index_elem in Hnm.
  - unfold try_except, try_catch.
    destruct (toc_two_part_search E _ _ _); [eauto|]. simpl. eauto.
Qed.

(** X6: when the TOC has no entries the keyword search adds nothing to
    [extract_mda]: it raises whenever the TOC-based extractor raises. *)
Theorem keyword_fallback_without_toc_entries
    (text keywords_pattern toc_text : list N) :
  is_toc_text text toc_text ->
  toc_section_titles toc_text = [] ->
  (raises (_extract_mda_via_toc E text keywords_pattern) ->
   raises (_extract_mda_via_keyword_search E text keywords_pattern))
  /\ extract_mda E text keywords_pattern
     = match _extract_mda_via_toc E text keywords_pattern with
       | Ok r => Ok r
       | Raise _ => Ok []
       end.
Proof.
  intros Htoc Ht.
  pose proof (toc_fallback_vs_keyword_search E text keywords_pattern toc_text
                Htoc (or_introl Ht)) as H.
  unfold extract_mda, try_except, try_catch, raises.
  destruct (_extract_mda_via_keyword_search E text keywords_pattern) as [r|e].
  - destruct H as [(-> & -> & _) | (h & content & _ & -> & _)];
      split; try done; intros [? ?]; done.
  - rewrite H. simpl. split; eauto.
Qed.

End TocReturns.

Module MaskFacts.
Import Re.

Lemma digits_or_leader_no_match c s :
  is_digit_or_dot c = false -> match_at false Pat.digits_or_leader (c :: s) = None.
Proof.
  unfold is_digit_or_dot. intros [Hd Hdot]%orb_false_iff.
  unfold Pat.digits_or_leader.
  pose proof (match_plus (ASet false [CDigit]) (c :: s)) as Hp.
  cbn [match_at] in Hp |- *. rewrite digit_atom, Hd in Hp.
  destruct (match_branch false [plus (ASet false [CDigit])] (c :: s) 0); [done|].
  change (lits (u ". ⋯")) with
    [one (ALit (ch ".")); one (ALit (ch " ")); one (ALit (ch "⋯"))].
  cbn [match_branch one p_atom p_min p_max].
  rewrite ReFacts.match_rep_one. cbn [atom_matches]. by rewrite Hdot.
Qed.

Lemma digits_or_leader_nil : match_at false Pat.digits_or_leader [] = None.
Proof. reflexivity. Qed.

Lemma sub_empty_no_match r s :
  (forall k, match_at false r (drop k s) = None) -> sub_empty r s = s.
Proof.
  intros H. unfold sub_empty, split, spans.
  rewrite (ReFacts.scan_no_match r s 0 H). simpl. by rewrite app_nil_r.
Qed.

Lemma sub_leader_id s :
  Forall (fun c => is_digit_or_dot c = false) s ->
  sub_empty Pat.digits_or_leader s = s.
Proof.
  intros Hs. apply sub_empty_no_match. intros k.
  destruct (drop k s) as [|c rest] eqn:Hd; [apply digits_or_leader_nil|].
  apply digits_or_leader_no_match.
  assert (Hc : c ∈ s).
  { rewrite <- (take_drop k s), Hd. apply elem_of_app. right.
    apply list_elem_of_here. }
  by apply (proj1 (Forall_forall _ _) Hs).
Qed.

Lemma lstrip_id s :
  (forall c, head s = Some c -> Uni.is_space c = false) -> Py_str.lstrip s = s.
Proof.
  destruct s as [|c s]; [done|]. intros H. simpl. by rewrite (H c eq_refl).
Qed.

Lemma rstrip_id s :
  (forall c, last s = Some c -> Uni.is_space c = false) -> Py_str.rstrip s = s.
Proof.
  intros H. unfold Py_str.rstrip. rewrite lstrip_id.
  - apply reverse_involutive.
  - intros c Hc. apply H. by rewrite <- head_reverse.
Qed.

(** The characters of a marker are no digits, dots or whitespace. *)
Lemma marker_chars m :
  is_section_marker m ->
  exists n k, m = [NL; ch "第"; n; k] /\ Py.remove_char NL m = [ch "第"; n; k]
    /\ is_digit_or_dot n = false /\ is_digit_or_dot k = false
    /\ Uni.is_space n = false /\ Uni.is_space k = false.
Proof.
  intros (n & k & -> & Hn & Hk). exists n, k.
  assert (Hn' : n ∈ [ch "一"; ch "二"; ch "三"; ch "四"; ch "五"; ch "六"; ch "七";
                     ch "八"; ch "九"; ch "十"]) by exact Hn.
  assert (Hk' : k ∈ [ch "节"; ch "|"; ch "章"]) by exact Hk.
  clear Hn Hk.
  repeat (apply elem_of_cons in Hn' as [-> | Hn']);
    try (by apply elem_of_nil in Hn');
    repeat (apply elem_of_cons in Hk' as [-> | Hk']);
    try (by apply elem_of_nil in Hk');
    split_and!; vm_compute; reflexivity.
Qed.

Lemma whitespace_match c s :
  match_at false Pat.whitespace (c :: s)
  = if Uni.is_space c then Some 1%nat else None.
Proof.
  unfold Pat.whitespace. cbn [match_at match_branch one p_atom p_min p_max].
  rewrite ReFacts.match_rep_one, ReFacts.atom_space.
  by destruct (Uni.is_space c).
Qed.

Lemma scan_whitespace s pos :
  length (scan Pat.whitespace s pos 0) = whitespace_count s.
Proof.
  revert pos. induction s as [|c s IH]; intros pos; [reflexivity|].
  cbn [scan]. rewrite whitespace_match. unfold whitespace_count.
  destruct (Uni.is_space c) eqn:Hc.
  - rewrite filter_cons_True by done. simpl. f_equal. apply IH.
  - rewrite filter_cons_False by congruence. apply IH.
Qed.

Lemma split_whitespace_length s :
  length (split Pat.whitespace s) = S (whitespace_count s).
Proof. unfold split, spans. by rewrite between_length, scan_whitespace. Qed.

Lemma unpack2_length l p : unpack2 l = Ok p -> length l = 2%nat.
Proof. destruct l as [|a [|b [|c l]]]; done. Qed.

Lemma unpack2_raise l e : unpack2 l = Raise e -> e = ValueError.
Proof. destruct l as [|a [|b [|c l]]]; simpl; congruence. Qed.

Lemma whitespace_count_app s t :
  whitespace_count (s ++ t) = (whitespace_count s + whitespace_count t)%nat.
Proof. unfold whitespace_count. by rewrite filter_app, length_app. Qed.

Lemma section_title_mask toc_text marker title :
  marker ∈ toc_section_markers toc_text ->
  title ∈ toc_section_titles toc_text ->
  title_mask (Py.remove_char NL marker ++ title)
  = Py.remove_char NL marker ++ title.
Proof.
  intros Hm Ht.
  apply (proj1 (Forall_forall _ _) (markers_are_section_markers toc_text)) in Hm.
  apply marker_chars in Hm as (n & k & _ & -> & Hn & Hk & _ & Hks).
  apply title_cleaned in Ht as (Hdig & _ & Hlast).
  unfold title_mask. rewrite sub_leader_id.
  - apply rstrip_id. intros c Hc.
    destruct title as [|t0 title]; [simpl in Hc; congruence|].
    apply Hlast. rewrite <- Hc.
    by rewrite last_app_cons.
  - change ([ch "第"; n; k] ++ title) with (ch "第" :: n :: k :: title).
    repeat (apply Forall_cons; split);
      [vm_compute; reflexivity | exact Hn | exact Hk | exact Hdig].
Qed.

Lemma whitespace_count_marker m title :
  is_section_marker m ->
  whitespace_count (Py.remove_char NL m ++ title) = whitespace_count title.
Proof.
  intros (n & k & _ & -> & _ & _ & Hn & Hk)%marker_chars.
  rewrite whitespace_count_app. unfold whitespace_count at 1.
  rewrite filter_cons_False by (vm_compute; discriminate).
  rewrite filter_cons_False by congruence.
  rewrite filter_cons_False by congruence. done.
Qed.

End MaskFacts.
Import MaskFacts.

(** X7: the second cleaning of a section title changes nothing: the mask of a
    TOC entry is its marker without the newline followed by its title, and
    its whitespace is that of the title. *)
Theorem title_mask_is_section_title (toc_text marker title : list N) :
  marker ∈ toc_section_markers toc_text ->
  title ∈ toc_section_titles toc_text ->
  title_mask (Py.remove_char NL marker ++ title)
  = Py.remove_char NL marker ++ title
  /\ whitespace_count (title_mask (Py.remove_char NL marker ++ title))
     = whitespace_count title.
Proof.
  intros Hm Ht. rewrite (section_title_mask toc_text marker title Hm Ht).
  split; [reflexivity|]. apply whitespace_count_marker.
  by apply (proj1 (Forall_forall _ _) (markers_are_section_markers toc_text)).
Qed.

Module SearchFacts.

(** A window [s[a - w : a + w]] whose start wraps around the end of [s]. *)
Lemma slice_wrapped_empty {A} (s : list A) (a w : Z) :
  0 <= a < w -> 2 * w <= Z.of_nat (length s) -> Py.slice s (a - w) (a + w) = [].
Proof.
  intros Ha Hlen. unfold Py.slice, Py.clamp.
  destruct (Z.ltb_spec (a - w) 0); [|lia].
  destruct (Z.ltb_spec (a + w) 0); [lia|].
  replace (Z.to_nat _) with 0%nat by lia. done.
Qed.



Lemma windows_empty (text : list N) (ms : list rmatch) :
  Forall (fun m => (m_start m < 10)%nat) ms ->
  (20 <= length text)%nat ->
  concat (map (fun m =>
        let start := Z.of_nat (m_start m) in
        Re.findall Pat.numeral_run (Py.slice text (start - 10) (start + 10)))
      ms) = [].
Proof.
  intros Hnear Hlen. induction Hnear as [|m ms Hm _ IH]; [done|].
  rewrite map_cons, concat_cons, IH. cbv zeta.
  rewrite (slice_wrapped_empty text (Z.of_nat (m_start m)) 10) by lia.
  reflexivity.
Qed.

Section Engine.
Variable E : RegexEngine.

Lemma confirmed_start_elem p body cands a :
  confirmed_start E p body cands = Ok (Some a) -> a ∈ cands.
Proof.
  induction cands as [|c cands IH]; simpl; [done|].
  destruct (re_scan E p _) as [[|m ms]|]; simpl; [| |done].
  - intros H. apply elem_of_cons. right. by apply IH.
  - intros [= <-]. apply list_elem_of_here.
Qed.

Lemma confirmed_end_elem p body st cands b :
  confirmed_end E p body st cands = Ok (Some b) ->
  b ∈ cands /\ exists a, st = Some a /\ a < b.
Proof.
  induction cands as [|c cands IH]; simpl; [done|].
  assert (Hrest : confirmed_end E p body st cands = Ok (Some b) ->
                  b ∈ c :: cands /\ exists a, st = Some a /\ a < b).
  { intros [Hin Ha]%IH. split; [|done]. apply elem_of_cons. by right. }
  destruct (re_scan E p _) as [[|m ms]|]; simpl; [done| |done].
  destruct st as [a|]; [|done].
  destruct (Z.ltb_spec a c); [|done].
  intros [= <-]. split; [apply list_elem_of_here | eauto].
Qed.

(** A candidate in the first [w] characters of a body of at least [2 * w]
    characters is looked for in an empty window. *)
Lemma confirmed_start_early p body cands :
  re_scan E p [] = Ok [] ->
  100 <= Z.of_nat (length body) ->
  Forall (fun c => 0 <= c < 50) cands ->
  confirmed_start E p body cands = Ok None.
Proof.
  intros Hp Hlen. induction 1 as [|c cands Hc _ IH]; simpl; [done|].
  rewrite (slice_wrapped_empty body c 50) by lia. by rewrite Hp.
Qed.

Lemma two_part_one_space body mask next :
  whitespace_count mask <> 1%nat ->
  toc_two_part_search E body mask next = Raise ValueError.
Proof.
  intros Hws. unfold toc_two_part_search.
  destruct (unpack2 (Re.split Pat.whitespace mask)) as [p|e] eqn:Hu.
  - apply unpack2_length in Hu. rewrite split_whitespace_length in Hu. lia.
  - by rewrite (unpack2_raise _ _ Hu).
Qed.

End Engine.
End SearchFacts.
Import SearchFacts.

Section Search.
Variable E : RegexEngine.

(** X8: when the two-part search returns, each mask holds exactly one whitespace
    character, the start and the end are offsets of matches of the second
    parts, the end lies after the start, and the result is the body between
    them. *)
Theorem two_part_search_ordered (body mask next r : list N) :
  toc_two_part_search E body mask next = Ok r ->
  whitespace_count mask = 1%nat /\ whitespace_count next = 1%nat
  /\ exists p1 p2 q1 q2 starts ends a b,
       Re.split Pat.whitespace mask = [p1; p2]
       /\ Re.split Pat.whitespace next = [q1; q2]
       /\ re_finditer E p2 body = Ok starts
       /\ re_finditer E q2 body = Ok ends
       /\ a ∈ map (fun m => Z.of_nat (m_start m)) starts
       /\ b ∈ map (fun m => Z.of_nat (m_start m)) ends
       /\ 0 <= a < b
       /\ r = Py.slice body a b.
Proof.
  unfold toc_two_part_search. intros H.
  destruct (unpack2 (Re.split Pat.whitespace mask)) as [[p1 p2]|] eqn:Hu1;
    cbn [mbind result_bind] in H; [|done].
  destruct (re_finditer E p2 body) as [starts|] eqn:Hs;
    cbn [mbind result_bind] in H; [|done].
  destruct (confirmed_start E p1 body _) as [st|] eqn:Hcs;
    cbn [mbind result_bind] in H; [|done].
  destruct (unpack2 (Re.split Pat.whitespace next)) as [[q1 q2]|] eqn:Hu2;
    cbn [mbind result_bind] in H; [|done].
  destruct (re_finditer E q2 body) as [ends|] eqn:He;
    cbn [mbind result_bind] in H; [|done].
  destruct (confirmed_end E q1 body st _) as [en|] eqn:Hce;
    cbn [mbind result_bind] in H; [|done].
  destruct st as [a|]; [|done]. destruct en as [b|]; [|done].
  injection H as <-.
  apply confirmed_start_elem in Hcs.
  apply confirmed_end_elem in Hce as (Hb & a' & [= <-] & Hab).
  pose proof (unpack2_length _ _ Hu1) as Hl1.
  pose proof (unpack2_length _ _ Hu2) as Hl2.
  rewrite split_whitespace_length in Hl1, Hl2.
  split_and!; [lia | lia |].
  exists p1, p2, q1, q2, starts, ends, a, b.
  assert (Ha0 : 0 <= a).
  { apply list_elem_of_fmap in Hcs as (m & -> & _). lia. }
  split_and!; try done.
  - destruct (Re.split Pat.whitespace mask) as [|x [|y [|z l]]]; try done.
    simpl in Hu1. by injection Hu1 as <- <-.
  - destruct (Re.split Pat.whitespace next) as [|x [|y [|z l]]]; try done.
    simpl in Hu2. by injection Hu2 as <- <-.
Qed.

(** X9: in a body of a hundred characters or more, a candidate start in the first
    fifty characters is never confirmed: its window starts at a negative
    offset, which the slice counts from the end.  With such candidates only,
    the two-part search raises. *)
Theorem two_part_search_ignores_early_candidates
    (body mask next p1 p2 : list N) (starts : list rmatch) :
  Re.split Pat.whitespace mask = [p1; p2] ->
  re_finditer E p2 body = Ok starts ->
  Forall (fun m => (m_start m < 50)%nat) starts ->
  (100 <= length body)%nat ->
  re_scan E p1 [] = Ok [] ->
  raises (toc_two_part_search E body mask next).
Proof.
  intros Hsplit Hstarts Hearly Hlen Hp1. unfold toc_two_part_search, raises.
  rewrite Hsplit. cbn [unpack2 mbind result_bind]. rewrite Hstarts.
  cbn [mbind result_bind].
  rewrite (confirmed_start_early E p1 body _ Hp1); [|lia|].
  2: { apply Forall_map. eapply Forall_impl; [exact Hearly|].
       intros m Hm. simpl in *. lia. }
  cbn [mbind result_bind].
  destruct (unpack2 (Re.split Pat.whitespace next)) as [[q1 q2]|];
    cbn [mbind result_bind]; [|eauto].
  destruct (re_finditer E q2 body) as [ends|]; cbn [mbind result_bind]; [|eauto].
  destruct (confirmed_end E q1 body None _) as [en|];
    cbn [mbind result_bind]; eauto.
Qed.

(** X10: a TOC entry whose title does not hold exactly one whitespace character is
    extracted by the literal split: the two-part search raises ValueError
    when it unpacks the parts of the title. *)
Theorem toc_unspaced_title_uses_literal_split
    (text keywords_pattern title : list N) (toc_start_index toc_end_index i : Z) :
  _get_toc_range text = Ok (toc_start_index, toc_end_index) ->
  let toc_text := Py.slice text toc_start_index toc_end_index in
  mda_toc_index E (_get_mda_keywords_pattern keywords_pattern)
    (toc_section_titles toc_text) = Ok i ->
  Py.index (toc_section_titles toc_text) i = Ok title ->
  whitespace_count title <> 1%nat ->
  i + 1 < Z.of_nat (length (toc_section_titles toc_text)) ->
  exists marker next_marker next_title,
    Py.index (toc_section_markers toc_text) i = Ok marker
    /\ Py.index (toc_section_markers toc_text) (i + 1) = Ok next_marker
    /\ Py.index (toc_section_titles toc_text) (i + 1) = Ok next_title
    /\ _extract_mda_via_toc E text keywords_pattern
       = toc_literal_split (Py.slice_from text toc_end_index)
           (Py.remove_char NL marker ++ title)
           (Py.remove_char NL next_marker ++ next_title).
Proof.
  intros Hrange toc_text Hi Htitle Hws Hnext.
  pose proof (mda_toc_index_range _ _ _ _ Hi) as Hir.
  pose proof (markers_are_section_markers toc_text) as Hshape.
  pose proof (titles_markers_length toc_text) as Hlen.
  destruct (index_in_range (toc_section_markers toc_text) i ltac:(lia))
    as [mk Hmk].
  destruct (index_in_range (toc_section_markers toc_text) (i + 1) ltac:(lia))
    as [nm Hnm].
  destruct (index_in_range (toc_section_titles toc_text) (i + 1) ltac:(lia))
    as [nt Hnt].
  exists mk, nm, nt. split_and!; [done..|].
  unfold _extract_mda_via_toc. rewrite Hrange. cbn [mbind result_bind].
  fold toc_text.
  destruct (toc_section_titles toc_text) as [|t ts] eqn:Et;
    [simpl in Hir; lia|].
  destruct (toc_section_markers toc_text) as [|m ms] eqn:Em;
    [simpl in Hlen; lia|].
  rewrite Hi. cbn [mbind result_bind].
  rewrite Hmk, Htitle. cbn [mbind result_bind].
  rewrite Hnm, Hnt. cbn [mbind result_bind].
  assert (Hmk' : mk ∈ toc_section_markers toc_text)
    by (rewrite Em; by apply index_elem in Hmk).
  assert (Hnm' : nm ∈ toc_section_markers toc_text)
    by (rewrite Em; by apply index_elem in Hnm).
  assert (Ht' : title ∈ toc_section_titles toc_text)
    by (rewrite Et; by apply index_elem in Htitle).
  assert (Hnt' : nt ∈ toc_section_titles toc_text)
    by (rewrite Et; by apply index_elem in Hnt).
  rewrite (section_title_mask toc_text mk title Hmk' Ht').
  rewrite (section_title_mask toc_text nm nt Hnm' Hnt').
  rewrite two_part_one_space; [reflexivity|].
  rewrite whitespace_count_marker; [done|].
  apply (proj1 (Forall_forall _ _) Hshape). by apply index_elem in Hmk.
Qed.


(** X12: a keyword found in the first ten characters of a text of twenty
    characters or more brings no numeral: its window starts at a negative
    offset, which the slice counts from the end.  With such occurrences only,
    the keyword search returns the empty string. *)
Theorem keyword_near_start_ignored (text keywords_pattern : list N)
    (ms : list rmatch) :
  re_finditer E (_get_mda_keywords_pattern keywords_pattern) text = Ok ms ->
  Forall (fun m => (m_start m < 10)%nat) ms ->
  (20 <= length text)%nat ->
  numbers_found E (_get_mda_keywords_pattern keywords_pattern) text = Ok []
  /\ _extract_mda_via_keyword_search E text keywords_pattern = Ok [].
Proof.
  intros Hms Hnear Hlen.
  assert (Hnums : numbers_found E (_get_mda_keywords_pattern keywords_pattern) text
                  = Ok []).
  { unfold numbers_found. rewrite Hms. cbn [mbind result_bind]. f_equal.
    by apply windows_empty. }
  split; [exact Hnums|].
  unfold _extract_mda_via_keyword_search. by rewrite Hnums.
Qed.

End Search.

Module CounterFacts.
Import Counter.

Lemma get_add x y c :
  counter_get (add x c) y = if decide (y = x) then S (counter_get c x) else counter_get c y.
Proof.
  induction c as [|[z n] c IH]; simpl.
  - by destruct (decide (y = x)).
  - destruct (decide (x = z)) as [->|Hxz]; simpl.
    + repeat case_decide; congruence.
    + rewrite IH. repeat case_decide; congruence.
Qed.

Lemma add_keys x c p : p ∈ add x c -> p.1 = x \/ p.1 ∈ c.*1.
Proof.
  induction c as [|[z n] c IH]; simpl.
  - intros ->%list_elem_of_singleton. by left.
  - destruct (decide (x = z)) as [->|Hxz].
    + intros [-> | Hp]%elem_of_cons; [by left|].
      right. apply elem_of_cons. right. by apply list_elem_of_fmap_2.
    + intros [-> | Hp]%elem_of_cons.
      * right. apply list_elem_of_here.
      * destruct (IH Hp); [by left | right]. apply elem_of_cons. by right.
Qed.

Lemma add_NoDup x c : NoDup c.*1 -> NoDup (add x c).*1.
Proof.
  induction c as [|[z n] c IH]; simpl.
  - intros _. apply NoDup_singleton.
  - intros [Hz Hc]%NoDup_cons. destruct (decide (x = z)) as [->|Hxz]; simpl.
    + by apply NoDup_cons.
    + apply NoDup_cons. split; [|by apply IH].
      intros (p & Hp1 & Hp)%list_elem_of_fmap.
      simpl in Hp1. apply add_keys in Hp as [Hp | Hp]; [congruence|].
      apply Hz. by rewrite Hp1.
Qed.

Lemma get_elem c p : NoDup c.*1 -> p ∈ c -> counter_get c p.1 = p.2.
Proof.
  induction c as [|[z n] c IH]; simpl.
  - by intros _ ?%elem_of_nil.
  - intros [Hz Hc]%NoDup_cons [-> | Hp]%elem_of_cons; simpl.
    + by rewrite decide_True by done.
    + rewrite decide_False; [by apply IH|].
      intros Heq. apply Hz. rewrite <- Heq. by apply list_elem_of_fmap_2.
Qed.

Lemma get_pos c x : (0 < counter_get c x)%nat -> (x, counter_get c x) ∈ c.
Proof.
  induction c as [|[z n] c IH]; simpl; [lia|].
  destruct (decide (x = z)) as [->|].
  - intros _. apply list_elem_of_here.
  - intros H. apply elem_of_cons. right. by apply IH.
Qed.

Lemma occurrences_snoc x l y :
  occurrences y (l ++ [x])
  = (occurrences y l + if decide (y = x) then 1 else 0)%nat.
Proof.
  unfold occurrences. rewrite filter_app, length_app. f_equal.
  destruct (decide (y = x)) as [->|].
  - by rewrite filter_cons_True by done.
  - by rewrite filter_cons_False by congruence.
Qed.

Lemma foldl_add l : forall c seen,
  NoDup c.*1 -> (forall y, counter_get c y = occurrences y seen) ->
  NoDup (foldl (fun c x => add x c) c l).*1
  /\ forall y, counter_get (foldl (fun c x => add x c) c l) y = occurrences y (seen ++ l).
Proof.
  induction l as [|x l IH]; intros c seen Hnd Hget; simpl.
  - by rewrite app_nil_r.
  - destruct (IH (add x c) (seen ++ [x])) as [Hnd' Hget'].
    + by apply add_NoDup.
    + intros y. rewrite get_add, occurrences_snoc, !Hget.
      destruct (decide (y = x)) as [->|]; lia.
    + split; [done|]. intros y. rewrite Hget'. by rewrite <- app_assoc.
Qed.

Lemma of_list_spec l :
  NoDup (of_list l).*1 /\ forall y, counter_get (of_list l) y = occurrences y l.
Proof.
  unfold of_list. apply (foldl_add l [] []); [constructor | done].
Qed.

Lemma foldl_best (c : list (list N * nat)) : forall p,
  let best := foldl (fun best q => if (best.2 <? q.2)%nat then q else best) p c in
  best ∈ p :: c /\ (p.2 <= best.2)%nat /\ forall q, q ∈ c -> (q.2 <= best.2)%nat.
Proof.
  induction c as [|q c IH]; intros p; simpl.
  - split_and!; [apply list_elem_of_here | lia | by intros ? ?%elem_of_nil].
  - destruct (Nat.ltb_spec p.2 q.2) as [Hlt | Hge].
    + destruct (IH q) as (Hin & Hle & Hall). split_and!.
      * apply elem_of_cons. by right.
      * lia.
      * intros q' [-> | Hq']%elem_of_cons; [done | by apply Hall].
    + destruct (IH p) as (Hin & Hle & Hall). split_and!.
      * apply elem_of_cons in Hin as [-> | Hin]; [apply list_elem_of_here|].
        apply elem_of_cons. right. apply elem_of_cons. by right.
      * done.
      * intros q' [-> | Hq']%elem_of_cons; [lia | by apply Hall].
Qed.

Lemma most_common1_max c top :
  Py.index (most_common1 c) 0 = Ok top ->
  top ∈ c /\ forall q, q ∈ c -> (q.2 <= top.2)%nat.
Proof.
  destruct c as [|p c]; [done|]. unfold most_common1. rewrite index_first.
  intros [= <-]. destruct (foldl_best c p) as (Hin & Hle & Hall).
  split; [done|]. intros q [-> | Hq]%elem_of_cons; [done | by apply Hall].
Qed.

Lemma occurrences_pos x l : (0 < occurrences x l)%nat <-> x ∈ l.
Proof.
  unfold occurrences. induction l as [|y l IH]; simpl.
  - split; [lia | by intros ?%elem_of_nil].
  - destruct (decide (y = x)) as [->|].
    + rewrite filter_cons_True by done. simpl.
      split; [intros _; apply list_elem_of_here | lia].
    + rewrite filter_cons_False by done. rewrite IH, elem_of_cons.
      split; [by right | by intros [-> | ?]].
Qed.

Lemma most_common1_spec (nums : list (list N)) top :
  Py.index (most_common1 (of_list nums)) 0 = Ok top ->
  top.2 = occurrences top.1 nums
  /\ forall y, (occurrences y nums <= top.2)%nat.
Proof.
  intros [Hin Hmax]%most_common1_max.
  destruct (of_list_spec nums) as [Hnd Hget].
  split; [by rewrite <- Hget, (get_elem _ _ Hnd Hin)|].
  intros y. destruct (occurrences y nums) as [|n] eqn:Hy; [lia|].
  rewrite <- Hy, <- Hget.
  apply (Hmax (y, counter_get (of_list nums) y)), get_pos. rewrite Hget. lia.
Qed.

Lemma of_list_nonempty x l : of_list (x :: l) <> [].
Proof.
  intros H. destruct (of_list_spec (x :: l)) as [_ Hget].
  specialize (Hget x). rewrite H in Hget. simpl in Hget.
  unfold occurrences in Hget. by rewrite filter_cons_True in Hget by done.
Qed.

Lemma foldl_add_keys l : forall c p,
  p ∈ foldl (fun c x => add x c) c l -> p.1 ∈ c.*1 \/ p.1 ∈ l.
Proof.
  induction l as [|x l IH]; intros c p; simpl.
  - intros Hp. left. by apply list_elem_of_fmap_2.
  - intros [Hp | Hp]%IH.
    + apply list_elem_of_fmap in Hp as (q & -> & Hq).
      apply add_keys in Hq as [-> | Hq]; [right; apply list_elem_of_here | by left].
    + right. apply elem_of_cons. by right.
Qed.

Lemma most_common1_elem nums top :
  Py.index (most_common1 (of_list nums)) 0 = Ok top -> top.1 ∈ nums.
Proof.
  intros [Hin _]%most_common1_max.
  apply foldl_add_keys in Hin as [Hin | Hin]; [by apply elem_of_nil in Hin | done].
Qed.

Lemma most_common1_returns x l :
  exists top, Py.index (most_common1 (of_list (x :: l))) 0 = Ok top.
Proof.
  destruct (of_list (x :: l)) as [|p c] eqn:Hc; [by apply of_list_nonempty in Hc|].
  unfold most_common1. rewrite index_first. eauto.
Qed.

End CounterFacts.

Module NumeralFacts.
Import Re.

Lemma plus_never_empty a : never_empty [[plus a]].
Proof.
  intros s. rewrite match_plus.
  destruct s as [|c s]; [done|]. by destruct (atom_matches a c).
Qed.

Lemma findall_plus_set (l : list N) s :
  Forall (fun r => r <> [] /\ Forall (fun c => c ∈ l) r)
    (findall [[plus (ASet false (map CChar l))]] s).
Proof.
  unfold findall, spans. apply Forall_map, Forall_forall. intros sp Hsp.
  apply (scan_spans _ _ _ _ _ (plus_never_empty _)) in Hsp
    as (j & n & -> & _ & Hm & _).
  rewrite match_plus in Hm.
  unfold substr. cbn [fst snd]. rewrite !Nat.add_0_l.
  replace (j + n - j)%nat with n by lia.
  destruct (drop j s) as [|c rest]; [done|].
  destruct (atom_matches (ASet false (map CChar l)) c) eqn:Hc; [|done].
  injection Hm as <-. rewrite firstn_cons. split; [done|].
  apply Forall_cons. split.
  - by apply set_atom_elem.
  - eapply Forall_impl; [apply run_length_Forall|].
    intros d Hd. by apply set_atom_elem.
Qed.

Lemma findall_numeral_runs s : Forall is_numeral_run (findall Pat.numeral_run s).
Proof. exact (findall_plus_set (u "一二三四五六七八九十") s). Qed.

Lemma numbers_found_runs E pat text nums :
  numbers_found E pat text = Ok nums -> Forall is_numeral_run nums.
Proof.
  unfold numbers_found.
  destruct (re_finditer E pat text) as [ms|]; cbn [mbind result_bind]; [|done].
  intros [= <-]. apply Forall_concat, Forall_map, Forall_forall.
  intros m _. apply findall_numeral_runs.
Qed.

Lemma single_numeral_successor c :
  c ∈ u "一二三四五六七八九十" -> is_Some (numeral_successor [c]).
Proof.
  intros Hc.
  assert (Hc' : c ∈ [ch "一"; ch "二"; ch "三"; ch "四"; ch "五"; ch "六"; ch "七";
                     ch "八"; ch "九"; ch "十"]) by exact Hc.
  clear Hc.
  repeat (apply elem_of_cons in Hc' as [-> | Hc']; [vm_compute; eauto|]).
  by apply elem_of_nil in Hc'.
Qed.

End NumeralFacts.
Import CounterFacts NumeralFacts.

(** X13: the numerals collected near the keywords are non-empty strings of the
    numerals 一 to 十. *)
Theorem numbers_found_are_numeral_runs (E : RegexEngine)
    (mda_keywords_pattern text : list N) (nums : list (list N)) :
  numbers_found E mda_keywords_pattern text = Ok nums ->
  Forall is_numeral_run nums.
Proof.
  unfold numbers_found. intros H.
  destruct (re_finditer E mda_keywords_pattern text) as [ms|];
    cbn [mbind result_bind] in H; [|done].
  injection H as <-. apply Forall_concat, Forall_map, Forall_forall.
  intros m _. apply findall_numeral_runs.
Qed.

(** X14: the section number: under the guard of the source the lookup of the most
    common numeral never fails; the numeral chosen stands in the list, its
    count is the number of times it stands there, and no string stands there
    more often. *)
Theorem most_common_section_number (nums : list (list N)) :
  nums <> [] ->
  exists top,
    Py.index (Counter.most_common1 (Counter.of_list nums)) 0 = Ok top
    /\ top.1 ∈ nums
    /\ top.2 = occurrences top.1 nums
    /\ forall y, (occurrences y nums <= top.2)%nat.
Proof.
  intros Hne. destruct nums as [|x l]; [done|].
  destruct (most_common1_returns x l) as [top Htop]. exists top.
  destruct (most_common1_spec _ _ Htop) as [Hcount Hmax].
  split_and!; [done | by apply most_common1_elem | done | done].
Qed.

Section Numerals.
Variable E : RegexEngine.

(** X15: the keyword search handles single numerals only: when the most common
    numeral run has one character the next-section header is built for any
    header, and when it has more (十一, say) the extractor raises, although
    the integer map knows 十一 and 十二. *)
Theorem keyword_search_section_number (text keywords_pattern : list N)
    (nums : list (list N)) (top : list N * nat) :
  numbers_found E (_get_mda_keywords_pattern keywords_pattern) text = Ok nums ->
  Py.index (Counter.most_common1 (Counter.of_list nums)) 0 = Ok top ->
  (length top.1 = 1%nat
   /\ forall header, exists next, next_section_header top.1 header = Ok next)
  \/ ((2 <= length top.1)%nat
      /\ (forall header, next_section_header top.1 header = Raise KeyError)
      /\ raises (_extract_mda_via_keyword_search E text keywords_pattern)).
Proof.
  intros Hnums Htop.
  pose proof (most_common1_elem _ _ Htop) as Hin.
  pose proof (numbers_found_runs _ _ _ _ Hnums) as Hruns.
  apply (proj1 (Forall_forall _ _) Hruns) in Hin as [Hne Hall].
  destruct top.1 as [|c [|d rest]] eqn:Htop1; [done| |].
  - left. split; [done|]. intros header.
    apply Forall_cons in Hall as [Hc _].
    destruct (single_numeral_successor c Hc) as [succ Hs].
    rewrite (next_header_some _ _ header Hs). eauto.
  - right. split; [simpl; lia|].
    assert (Hkey : forall header,
              next_section_header (c :: d :: rest) header = Raise KeyError)
      by (intros header; by apply next_header_none).
    split; [exact Hkey|].
    unfold _extract_mda_via_keyword_search, raises. rewrite Hnums.
    cbn [mbind result_bind]. destruct nums as [|x l]; [done|].
    rewrite Htop. cbn [mbind result_bind].
    destruct (mda_header_full_match E _ text) as [header|];
      cbn [mbind result_bind]; [|eauto].
    rewrite Htop1, Hkey. eauto.
Qed.

End Numerals.

(** ** The further properties on the example documents *)

Lemma short_toc_doc_toc : is_toc_text short_toc_doc short_toc_doc.
Proof. apply short_doc_is_toc_text; vm_compute; [reflexivity | lia]. Qed.

Lemma untitled_doc_toc : is_toc_text untitled_doc untitled_doc.
Proof. apply short_doc_is_toc_text; vm_compute; [reflexivity | lia]. Qed.

Lemma toc_returns_with_next_entry_witness :
  exists r, _extract_mda_via_toc py_re short_toc_doc [] = Ok r.
Proof.
  apply (toc_returns_with_next_entry py_re short_toc_doc [] short_toc_doc 0).
  - exact short_toc_doc_toc.
  - vm_compute. reflexivity.
  - vm_compute. reflexivity.
Defined.

Lemma keyword_fallback_without_toc_entries_witness :
  (raises (_extract_mda_via_toc py_re untitled_doc []) ->
   raises (_extract_mda_via_keyword_search py_re untitled_doc []))
  /\ extract_mda py_re untitled_doc []
     = match _extract_mda_via_toc py_re untitled_doc [] with
       | Ok r => Ok r
       | Raise _ => Ok []
       end.
Proof.
  apply (keyword_fallback_without_toc_entries py_re untitled_doc [] untitled_doc).
  - exact untitled_doc_toc.
  - vm_compute. reflexivity.
Defined.

Lemma title_mask_is_section_title_witness :
  title_mask (Py.remove_char NL ([NL] ++ u "第一节") ++ u "年度管理层讨论与分析")
  = Py.remove_char NL ([NL] ++ u "第一节") ++ u "年度管理层讨论与分析"
  /\ whitespace_count
       (title_mask (Py.remove_char NL ([NL] ++ u "第一节") ++ u "年度管理层讨论与分析"))
     = whitespace_count (u "年度管理层讨论与分析").
Proof.
  apply (title_mask_is_section_title short_toc_doc).
  - vm_compute. apply list_elem_of_here.
  - vm_compute. apply list_elem_of_here.
Defined.

Lemma two_part_search_ordered_witness :
  whitespace_count (u "第三节 管理层讨论") = 1%nat
  /\ whitespace_count (u "第四节 公司治理") = 1%nat
  /\ exists p1 p2 q1 q2 starts ends a b,
       Re.split Pat.whitespace (u "第三节 管理层讨论") = [p1; p2]
       /\ Re.split Pat.whitespace (u "第四节 公司治理") = [q1; q2]
       /\ re_finditer py_re p2 spaced_body = Ok starts
       /\ re_finditer py_re q2 spaced_body = Ok ends
       /\ a ∈ map (fun m => Z.of_nat (m_start m)) starts
       /\ b ∈ map (fun m => Z.of_nat (m_start m)) ends
       /\ 0 <= a < b
       /\ u "管理层讨论" ++ [NL] ++ u "本年度经营情况良好" ++ [NL] ++ u "第四节 "
          = Py.slice spaced_body a b.
Proof.
  apply (two_part_search_ordered py_re spaced_body (u "第三节 管理层讨论")
           (u "第四节 公司治理")).
  vm_compute. reflexivity.
Defined.

Lemma two_part_search_ignores_early_candidates_witness :
  raises (toc_two_part_search py_re long_body (u "第三节 管理层讨论")
            (u "第四节 公司治理")).
Proof.
  apply (two_part_search_ignores_early_candidates py_re long_body
           (u "第三节 管理层讨论") (u "第四节 公司治理")
           (u "第三节") (u "管理层讨论") [RMatch 4 9 []]).
  - vm_compute. reflexivity.
  - vm_compute. reflexivity.
  - constructor; [simpl; lia | constructor].
  - vm_compute. lia.
  - vm_compute. reflexivity.
Defined.

Lemma toc_unspaced_title_uses_literal_split_witness :
  exists marker next_marker next_title,
    Py.index (toc_section_markers (Py.slice synthetic_doc 0 2000)) 2 = Ok marker
    /\ Py.index (toc_section_markers (Py.slice synthetic_doc 0 2000)) (2 + 1)
       = Ok next_marker
    /\ Py.index (toc_section_titles (Py.slice synthetic_doc 0 2000)) (2 + 1)
       = Ok next_title
    /\ _extract_mda_via_toc py_re synthetic_doc []
       = toc_literal_split (Py.slice_from synthetic_doc 2000)
           (Py.remove_char NL marker ++ u "管理层讨论与分析")
           (Py.remove_char NL next_marker ++ next_title).
Proof.
  apply (toc_unspaced_title_uses_literal_split py_re synthetic_doc []
           (u "管理层讨论与分析") 0 2000 2).
  - vm_compute. reflexivity.
  - vm_compute. reflexivity.
  - vm_compute. reflexivity.
  - vm_compute. lia.
  - vm_compute. reflexivity.
Defined.


Lemma keyword_near_start_ignored_witness :
  numbers_found py_re (_get_mda_keywords_pattern []) early_keyword_doc = Ok []
  /\ _extract_mda_via_keyword_search py_re early_keyword_doc [] = Ok [].
Proof.
  apply (keyword_near_start_ignored py_re early_keyword_doc [] [RMatch 2 7 []]).
  - vm_compute. reflexivity.
  - constructor; [simpl; lia | constructor].
  - vm_compute. lia.
Defined.

Lemma numbers_found_are_numeral_runs_witness :
  Forall is_numeral_run [u "三"; u "四"].
Proof.
  apply (numbers_found_are_numeral_runs py_re (_get_mda_keywords_pattern [])
           untitled_doc).
  vm_compute. reflexivity.
Defined.

Lemma most_common_section_number_witness :
  exists top,
    Py.index (Counter.most_common1 (Counter.of_list [u "三"; u "四"; u "四"])) 0
    = Ok top
    /\ top.1 ∈ [u "三"; u "四"; u "四"]
    /\ top.2 = occurrences top.1 [u "三"; u "四"; u "四"]
    /\ forall y, (occurrences y [u "三"; u "四"; u "四"] <= top.2)%nat.
Proof.
  apply (most_common_section_number [u "三"; u "四"; u "四"]). discriminate.
Defined.

Lemma keyword_search_section_number_witness :
  (length (u "十一") = 1%nat
   /\ forall header, exists next, next_section_header (u "十一") header = Ok next)
  \/ ((2 <= length (u "十一"))%nat
      /\ (forall header, next_section_header (u "十一") header = Raise KeyError)
      /\ raises (_extract_mda_via_keyword_search py_re compound_numeral_doc [])).
Proof.
  apply (keyword_search_section_number py_re compound_numeral_doc []
           [u "十一"; u "十二"] (u "十一", 1%nat)).
  - vm_compute. reflexivity.
  - vm_compute. reflexivity.
Defined.
